(** * CSV aggregation tool (tool/ExampleProgram.py): shallow embedding and
      verification of its four stages and of the orchestrator.

    The program is a pipeline
      FileParser.parse_file_string -> FileValidator.validate_file_paths
        -> CSVProcessor.read_and_concat_csvs -> FileWriter.save_dataframe
    driven by DataAggregator.process.  Python exceptions, the logging
    stream, the files written and the [dataframe] attribute of the
    aggregator are explicit: a computation is a function from the run-time
    state to an outcome (a value or a raised exception) and a new state. *)

From Stdlib Require Import List String Ascii Bool Arith Lia ZArith.
Import ListNotations.
Local Open Scope string_scope.
Local Open Scope list_scope.

(* ===================================================================== *)
(** ** Python strings

    A [str] is a sequence of code points; the model keeps the code points
    0..255 (the Latin-1 block of Unicode), one [ascii] each. *)
(* ===================================================================== *)

Module PyStr.

(** [str.isspace] on one code point below 256: TAB..CR, FS..US, SPACE,
    NEL (0x85) and NBSP (0xA0).  The [\s] class of [re] on [str] patterns
    is the same set. *)
Definition isspace (c : ascii) : bool :=
  let n := nat_of_ascii c in
  (((9 <=? n) && (n <=? 13)) || ((28 <=? n) && (n <=? 32))
  || (n =? 133) || (n =? 160))%nat.

(** [str.lower] on one code point below 256: A..Z and the accented
    capitals 0xC0..0xDE (0xD7, the multiplication sign, apart) move up by
    0x20, every other code point stays. *)
Definition lower_char (c : ascii) : ascii :=
  let n := nat_of_ascii c in
  if (((65 <=? n) && (n <=? 90))
      || ((192 <=? n) && (n <=? 222) && negb (n =? 215)))%nat
  then ascii_of_nat (n + 32) else c.

(** [s.lower()] *)
Fixpoint lower (s : string) : string :=
  match s with
  | EmptyString => EmptyString
  | String c s' => String (lower_char c) (lower s')
  end.

(** [s.startswith(p)] *)
Fixpoint startswith (s p : string) : bool :=
  match p, s with
  | EmptyString, _ => true
  | String _ _, EmptyString => false
  | String a p', String b s' => Ascii.eqb a b && startswith s' p'
  end.

(** [s.endswith(suffix)]: some tail of [s] is [suffix]. *)
Fixpoint endswith (s suffix : string) : bool :=
  String.eqb s suffix
  || match s with
     | EmptyString => false
     | String _ s' => endswith s' suffix
     end.

(** [s.lstrip()], [s.rstrip()] and [s.strip()] with no argument: white
    space goes from the two ends. *)
Fixpoint lstrip (s : string) : string :=
  match s with
  | EmptyString => EmptyString
  | String c s' => if isspace c then lstrip s' else s
  end.

Fixpoint rstrip (s : string) : string :=
  match s with
  | EmptyString => EmptyString
  | String c s' =>
      match rstrip s' with
      | EmptyString => if isspace c then EmptyString else String c EmptyString
      | r => String c r
      end
  end.

Definition strip (s : string) : string := rstrip (lstrip s).

(** ['...{}...'.format(x)] is written with [++] at each use. *)

(** *** [re.findall] for a pattern [[class]+]

    The scanner walks the string once.  [cur] is the match under
    construction, which grows while the next character is in the class
    (the [+] is greedy) and is emitted at the first character outside it
    or at the end of the string; an empty [cur] is no match. *)
Definition emit (cur : string) (found : list string) : list string :=
  match cur with
  | EmptyString => found
  | _ => cur :: found
  end.

Fixpoint findall_from (cls : ascii -> bool) (cur s : string) : list string :=
  match s with
  | EmptyString => emit cur []
  | String c s' =>
      if cls c
      then findall_from cls (cur ++ String c EmptyString)%string s'
      else emit cur (findall_from cls EmptyString s')
  end.

Definition re_findall_class (cls : ascii -> bool) (s : string) : list string :=
  findall_from cls EmptyString s.

(** Every character of [s] satisfies [p]. *)
Fixpoint all_chars (p : ascii -> bool) (s : string) : bool :=
  match s with
  | EmptyString => true
  | String c s' => p c && all_chars p s'
  end.

End PyStr.

(* ===================================================================== *)
(** ** [os.path.join] (posixpath, two arguments) *)
(* ===================================================================== *)

Module OsPath.

(** [[
    path = a
    if b.startswith(sep):            path = b
    elif not path or path.endswith(sep):  path += b
    else:                            path += sep + b
    ]] *)
Definition join (a b : string) : string :=
  if PyStr.startswith b "/" then b
  else if String.eqb a EmptyString || PyStr.endswith a "/" then (a ++ b)%string
  else (a ++ "/" ++ b)%string.

End OsPath.

(* ===================================================================== *)
(** ** FileParser *)
(* ===================================================================== *)

Module FileParser.

(** The character class of [file_parse_regex = r'[^,\s]+']. *)
Definition file_parse_class (c : ascii) : bool :=
  negb (Ascii.eqb c ","%char) && negb (PyStr.isspace c).

(** [matches = re.findall(file_parse_regex, file_string)] *)
Definition matches (file_string : string) : list string :=
  PyStr.re_findall_class file_parse_class file_string.

(** [[
    file_paths = [os.path.join(base_path, match.strip()) for match in matches]
    return file_paths
    ]] *)
Definition parse_file_string (file_string base_path : string) : list string :=
  map (fun m => OsPath.join base_path (PyStr.strip m)) (matches file_string).

End FileParser.

(* ===================================================================== *)
(** ** The tabular-data library (pandas), as far as the program uses it *)
(* ===================================================================== *)

Module Pandas.

(** A cell: a missing value ([NaN]) or a value read from a file.  Column
    types play no part in what is proved here, so numbers are integers. *)
Inductive Cell : Type :=
| NaN
| Num (z : Z)
| Str (s : string).

(** A [DataFrame] with the default [RangeIndex]: column labels and the
    rows in index order, each row giving one cell per column. *)
Record DataFrame : Type := mkDataFrame {
  columns : list string;
  rows : list (list Cell)
}.

Definition nrows (df : DataFrame) : nat := List.length (rows df).

(** [df.empty] *)
Definition empty (df : DataFrame) : bool :=
  match columns df, rows df with
  | _ :: _, _ :: _ => false
  | _, _ => true
  end.

Definition mem (c : string) (cols : list string) : bool :=
  existsb (String.eqb c) cols.

(** The cell of [row] under the label [c] ([NaN] when the frame has no
    such column). *)
Fixpoint cell_at (cols : list string) (row : list Cell) (c : string) : Cell :=
  match cols, row with
  | c' :: cols', v :: row' => if String.eqb c' c then v else cell_at cols' row' c
  | _, _ => NaN
  end.

(** Labels of [cols] not yet in [acc] are appended to it, in order. *)
Definition add_labels (acc cols : list string) : list string :=
  fold_left (fun a c => if mem c a then a else a ++ [c]) cols acc.

(** The union of the frames' column labels in order of first appearance
    (the outer join of [concat] on the column axis, [sort=False]). *)
Definition union_columns (dfs : list DataFrame) : list string :=
  fold_left (fun a df => add_labels a (columns df)) dfs [].

(** A row of a frame with columns [cols] laid out on the columns [new]. *)
Definition reindex (cols new : list string) (row : list Cell) : list Cell :=
  map (cell_at cols row) new.

(** The rows a frame contributes to a concatenation on columns [new]. *)
Definition aligned_rows (new : list string) (df : DataFrame) : list (list Cell) :=
  map (reindex (columns df) new) (rows df).

(** Modelled from the spec: [pandas.concat] is a function of the
    tabular-data library, which is not part of the repository.  The
    specification (sections 3 and 4.3) says what the program relies on:
    the rows of the per-file datasets are stacked in file-processing
    order, the columns are unioned by name, a column that a file does not
    have yields missing values for that file's rows, and the result is
    re-indexed sequentially (a row's index is its position in [rows]). *)
Definition stack (dfs : list DataFrame) : DataFrame :=
  let cols := union_columns dfs in
  mkDataFrame cols (flat_map (aligned_rows cols) dfs).

End Pandas.

(* ===================================================================== *)
(** ** Exceptions, logging and the computation monad *)
(* ===================================================================== *)

(** Classes of [Exception] the program can meet.  [except Exception]
    catches every one of them; [except pd.errors.EmptyDataError] the first
    only. *)
Inductive ExcClass : Type :=
| EmptyDataError
| ParserError
| OSError
| PermissionError
| ValueError
| RuntimeError.

Record PyException : Type := mkExc {
  exc_class : ExcClass;
  exc_msg : string      (* [str(e)] *)
}.

Definition is_EmptyDataError (e : PyException) : bool :=
  match exc_class e with EmptyDataError => true | _ => false end.

Inductive LogLevel : Type := INFO | WARNING | ERROR.

Record LogRecord : Type := mkLog {
  levelname : LogLevel;
  message : string
}.

(** What a run changes: the records sent to the log stream (oldest first),
    the files [to_csv] wrote (oldest first) and [self.dataframe] of the
    one [DataAggregator]. *)
Record Runtime : Type := mkRuntime {
  log : list LogRecord;
  written : list (string * Pandas.DataFrame);
  self_dataframe : option Pandas.DataFrame
}.

Inductive Outcome (A : Type) : Type :=
| Return (a : A)
| Raise (e : PyException).
Arguments Return {A} a.
Arguments Raise {A} e.

Definition Py (A : Type) : Type := Runtime -> Outcome A * Runtime.

Definition ret {A} (a : A) : Py A := fun st => (Return a, st).

Definition raise {A} (e : PyException) : Py A := fun st => (Raise e, st).

Definition bind {A B} (c : Py A) (k : A -> Py B) : Py B :=
  fun st =>
    match c st with
    | (Return a, st') => k a st'
    | (Raise e, st') => (Raise e, st')
    end.

Declare Scope py_scope.
Delimit Scope py_scope with py.
Notation "x <- c ;; k" := (bind c (fun x => k))
  (at level 61, c at next level, right associativity) : py_scope.
Notation "c ;; k" := (bind c (fun _ => k))
  (at level 61, right associativity) : py_scope.
Local Open Scope py_scope.

(** A call into a library whose result is a value or an exception. *)
Definition call {A} (r : Outcome A) : Py A := fun st => (r, st).

(** [try: body  except Exception as e: handler e] *)
Definition try_except {A} (body : Py A) (handler : PyException -> Py A) : Py A :=
  fun st =>
    match body st with
    | (Raise e, st') => handler e st'
    | r => r
    end.

(** [for x in xs: acc = body x acc], where [acc] stands for the local
    variables the body updates. *)
Fixpoint for_in {A S} (xs : list A) (body : A -> S -> Py S) (acc : S) : Py S :=
  match xs with
  | [] => ret acc
  | x :: xs' => acc' <- body x acc ;; for_in xs' body acc'
  end.

Module logging.

Definition emit (lvl : LogLevel) (msg : string) : Py unit :=
  fun st => (Return tt,
             mkRuntime (log st ++ [mkLog lvl msg]) (written st) (self_dataframe st)).

Definition info := emit INFO.
Definition warning := emit WARNING.
Definition error := emit ERROR.

End logging.

(* ===================================================================== *)
(** ** The world outside the program *)
(* ===================================================================== *)

(** The file system and the library calls that read or write it, fixed
    for one run.  Each call returns a value or raises.  [read_csv] raises
    [EmptyDataError] for a file in which there is nothing to parse, and
    returns a frame of zero rows for a file that holds a header line and
    nothing else. *)
Record World : Type := mkWorld {
  getcwd : string;                                          (* os.getcwd() *)
  os_path_exists : string -> Outcome bool;
  os_path_isfile : string -> Outcome bool;
  read_csv : string -> Outcome Pandas.DataFrame;            (* pd.read_csv(file) *)
  to_csv_failure : Pandas.DataFrame -> string -> option PyException
    (* [Some e]: dataframe.to_csv(out_file, index=False) raises e *)
}.

(** [pd.concat(dataframes, ignore_index=True)]: rows stacked in list
    order, columns unioned by name, index renumbered; [ValueError] when
    there is nothing to concatenate. *)
Definition pd_concat (dfs : list Pandas.DataFrame) : Py Pandas.DataFrame :=
  match dfs with
  | [] => raise (mkExc ValueError "No objects to concatenate")
  | _ => ret (Pandas.stack dfs)
  end.

(** [dataframe.to_csv(out_file, index=False)] *)
Definition to_csv (w : World) (dataframe : Pandas.DataFrame) (out_file : string)
  : Py unit :=
  match to_csv_failure w dataframe out_file with
  | Some e => raise e
  | None =>
      fun st => (Return tt,
                 mkRuntime (log st) (written st ++ [(out_file, dataframe)])
                           (self_dataframe st))
  end.

(* ===================================================================== *)
(** ** FileValidator *)
(* ===================================================================== *)

Module FileValidator.

(** The body of the [for path in file_paths] loop; [valid_paths] is the
    list the loop appends to.  A [continue] ends the body with the list
    as it was. *)
Definition validate_one (w : World) (path : string) (valid_paths : list string)
  : Py (list string) :=
  try_except
    (ex <- call (os_path_exists w path) ;;
     if negb ex then
       logging.warning ("Path does not exist: " ++ path)%string ;;
       ret valid_paths
     else
       isf <- call (os_path_isfile w path) ;;
       if negb isf then
         logging.warning ("Not a file: " ++ path)%string ;;
         ret valid_paths
       else if negb (PyStr.endswith (PyStr.lower path) ".csv") then
         logging.warning ("Not a CSV file: " ++ path)%string ;;
         ret valid_paths
       else
         ret (valid_paths ++ [path]))
    (fun e =>
       logging.error
         ("Error validating path " ++ path ++ ": " ++ exc_msg e)%string ;;
       ret valid_paths).

Definition validate_file_paths (w : World) (file_paths : list string)
  : Py (list string) :=
  for_in file_paths (validate_one w) [].

End FileValidator.

(* ===================================================================== *)
(** ** CSVProcessor *)
(* ===================================================================== *)

Module CSVProcessor.

(** The body of the [for file in file_paths] loop; [dataframes] is the
    list the loop appends to. *)
Definition read_one (w : World) (file : string) (dataframes : list Pandas.DataFrame)
  : Py (list Pandas.DataFrame) :=
  try_except
    (df <- call (read_csv w file) ;;
     logging.info ("Successfully processed: " ++ file)%string ;;
     ret (dataframes ++ [df]))
    (fun e =>
       if is_EmptyDataError e then
         logging.warning ("Empty file: " ++ file)%string ;;
         ret dataframes
       else
         logging.error
           ("Error processing " ++ file ++ ": " ++ exc_msg e)%string ;;
         ret dataframes).

Definition read_and_concat_csvs (w : World) (file_paths : list string)
  : Py (option Pandas.DataFrame) :=
  match file_paths with
  | [] =>
      logging.warning "No valid files to process" ;;
      ret None
  | _ =>
      dataframes <- for_in file_paths (read_one w) [] ;;
      match dataframes with
      | _ :: _ =>
          df <- pd_concat dataframes ;;
          ret (Some df)
      | [] =>
          logging.warning "No DataFrames were processed" ;;
          ret None
      end
  end.

End CSVProcessor.

(* ===================================================================== *)
(** ** FileWriter *)
(* ===================================================================== *)

Module FileWriter.

Definition default_filename : string := "aggregated_data.csv".

Definition save_dataframe (w : World) (dataframe : Pandas.DataFrame)
  (base_path filename : string) : Py string :=
  try_except
    (let out_file := OsPath.join base_path filename in
     to_csv w dataframe out_file ;;
     logging.info ("Aggregated data saved to " ++ out_file)%string ;;
     ret out_file)
    (fun e =>
       logging.error ("Error saving file: " ++ exc_msg e)%string ;;
       raise e).

End FileWriter.

(* ===================================================================== *)
(** ** DataAggregator *)
(* ===================================================================== *)

Module DataAggregator.

(** The attributes [__init__] sets and nothing changes afterwards;
    [self.dataframe] lives in the run-time state. *)
Record t : Type := mk {
  file_string : string;
  base_path : string
}.

Definition set_dataframe (d : option Pandas.DataFrame) : Py unit :=
  fun st => (Return tt, mkRuntime (log st) (written st) d).

Definition get_dataframe : Py (option Pandas.DataFrame) :=
  fun st => (Return (self_dataframe st), st).

(** [DataAggregator(file_string)] *)
Definition init (w : World) (file_string : string) : Py t :=
  set_dataframe None ;;
  ret (mk file_string (getcwd w)).

(** The [try] block of [process]. *)
Definition stages (w : World) (self : t) : Py (option string) :=
  let file_paths :=
    FileParser.parse_file_string (file_string self) (base_path self) in
  valid_paths <- FileValidator.validate_file_paths w file_paths ;;
  d <- CSVProcessor.read_and_concat_csvs w valid_paths ;;
  set_dataframe d ;;
  d' <- get_dataframe ;;
  match d' with
  | Some dataframe =>
      out <- FileWriter.save_dataframe w dataframe (base_path self)
               FileWriter.default_filename ;;
      ret (Some out)
  | None =>
      logging.warning "No data to save" ;;
      ret None
  end.

(** The [except Exception as e] clause of [process]. *)
Definition on_exception (e : PyException) : Py (option string) :=
  logging.error ("Data aggregation failed: " ++ exc_msg e)%string ;;
  ret None.

Definition process (w : World) (self : t) : Py (option string) :=
  try_except (stages w self) on_exception.

End DataAggregator.

(* ===================================================================== *)
(** ** The script: [main] and the exit status *)
(* ===================================================================== *)

Module Script.

(** How a piece of the script ends: normally, with an [Exception] that
    nothing caught yet, or with [SystemExit] ([sys.exit(code)]), which is
    not an [Exception] and passes through [except Exception]. *)
Inductive Flow (A : Type) : Type :=
| Normal (a : A)
| Uncaught (e : PyException)
| SystemExit (code : Z).
Arguments Normal {A} a.
Arguments Uncaught {A} e.
Arguments SystemExit {A} code.

(** The run-time state and the lines printed on standard output. *)
Record Console : Type := mkConsole {
  runtime : Runtime;
  stdout : list string
}.

Definition Sh (A : Type) : Type := Console -> Flow A * Console.

Definition ret {A} (a : A) : Sh A := fun k => (Normal a, k).

Definition bind {A B} (c : Sh A) (f : A -> Sh B) : Sh B :=
  fun k =>
    match c k with
    | (Normal a, k') => f a k'
    | (Uncaught e, k') => (Uncaught e, k')
    | (SystemExit code, k') => (SystemExit code, k')
    end.

Declare Scope sh_scope.
Delimit Scope sh_scope with sh.
Notation "x <- c ;; k" := (bind c (fun x => k))
  (at level 61, c at next level, right associativity) : sh_scope.
Notation "c ;; k" := (bind c (fun _ => k))
  (at level 61, right associativity) : sh_scope.

(** A computation of the program run from the script. *)
Definition lift {A} (c : Py A) : Sh A :=
  fun k =>
    match c (runtime k) with
    | (Return a, st) => (Normal a, mkConsole st (stdout k))
    | (Raise e, st) => (Uncaught e, mkConsole st (stdout k))
    end.

(** [sys.exit(code)] *)
Definition sys_exit {A} (code : Z) : Sh A := fun k => (SystemExit code, k).

(** [print(line)] *)
Definition print (line : string) : Sh unit :=
  fun k => (Normal tt, mkConsole (runtime k) (stdout k ++ [line])).

(** [try: body  except Exception as e: handler e] in the script. *)
Definition try_except_Exception {A} (body : Sh A) (handler : PyException -> Sh A)
  : Sh A :=
  fun k =>
    match body k with
    | (Uncaught e, k') => handler e k'
    | r => r
    end.

(** [if result:] for [result : Optional[str]]: [None] and the empty
    string are false. *)
Definition truthy (result : option string) : bool :=
  match result with
  | Some EmptyString => false
  | Some _ => true
  | None => false
  end.

(** ['{}'.format(result)] for a result that is a string. *)
Definition format_result (result : option string) : string :=
  match result with
  | Some out => out
  | None => "None"
  end.

(** [main()], given [sys.argv]. *)
Definition main (w : World) (argv : list string) : Sh unit :=
  try_except_Exception
    ((if (List.length argv <? 2)%nat then
        lift (logging.error "Please provide a comma-separated list of CSV files") ;;
        sys_exit 1
      else ret tt) ;;
     let file_string := nth 1 argv EmptyString in
     aggregator <- lift (DataAggregator.init w file_string) ;;
     result <- lift (DataAggregator.process w aggregator) ;;
     if truthy result then
       print ("Processing complete. Output file: " ++ format_result result)%string
     else
       print "Processing failed. Check logs for details.")%sh
    (fun e =>
       lift (logging.error
               ("Unexpected error in main execution: " ++ exc_msg e)%string) ;;
       sys_exit 1)%sh.

(** The exit status of the interpreter when the script ends this way: 0
    at the end of the script, the code of [sys.exit], 1 after a
    traceback. *)
Definition exit_status {A} (f : Flow A) : Z :=
  match f with
  | Normal _ => 0
  | Uncaught _ => 1
  | SystemExit code => code
  end.

End Script.

(* ===================================================================== *)
(** ** More of Python's strings and paths *)
(* ===================================================================== *)

Module PyStr2.

(** [s.split(sep)] for a separator of one character: the pieces between
    the occurrences of [sep], empty pieces included; never an empty
    list. *)
Fixpoint split (sep : ascii) (s : string) : list string :=
  match s with
  | EmptyString => [EmptyString]
  | String c s' =>
      if Ascii.eqb c sep then EmptyString :: split sep s'
      else match split sep s' with
           | piece :: pieces => String c piece :: pieces
           | [] => [String c EmptyString]
           end
  end.

(** [sep.join(pieces)] *)
Fixpoint join (sep : string) (pieces : list string) : string :=
  match pieces with
  | [] => EmptyString
  | [piece] => piece
  | piece :: rest => (piece ++ sep ++ join sep rest)%string
  end.

(** [s.rfind(c)] for one character: the index of its last occurrence,
    [None] standing for -1. *)
Fixpoint rfind (c : ascii) (s : string) : option nat :=
  match s with
  | EmptyString => None
  | String a s' =>
      match rfind c s' with
      | Some i => Some (S i)
      | None => if Ascii.eqb a c then Some 0 else None
      end
  end.

(** [s[i:]] *)
Fixpoint drop (i : nat) (s : string) : string :=
  match i, s with
  | 0, _ => s
  | S _, EmptyString => EmptyString
  | S i', String _ s' => drop i' s'
  end.

End PyStr2.

(** [pathlib.PurePosixPath]: a path is its root and the names after it. *)
Module PosixPath.

Record t : Type := mk {
  root : string;
  tail : list string
}.

(** [posixpath.splitroot]: no root, the root [/], or the root [//] when
    the string starts with exactly two slashes. *)
Definition splitroot (p : string) : string * string :=
  match p with
  | String "/" (String "/" (String "/" rest)) => ("/", String "/" (String "/" rest))
  | String "/" (String "/" rest) => ("//", rest)
  | String "/" rest => ("/", rest)
  | _ => (EmptyString, p)
  end.

Definition kept (x : string) : bool :=
  negb (String.eqb x EmptyString) && negb (String.eqb x ".").

(** [Path(file)]: the names are the pieces between slashes, empty
    pieces and [.] left out. *)
Definition of_string (file : string) : t :=
  let (r, rel) := splitroot file in
  mk r (filter kept (PyStr2.split "/" rel)).

(** [str(path)] *)
Definition to_string (p : t) : string :=
  match root p, tail p with
  | EmptyString, [] => "."
  | r, names => (r ++ PyStr2.join "/" names)%string
  end.

(** [path.name]: the last name, or the empty string. *)
Definition name (p : t) : string := last (tail p) EmptyString.

(** [path.suffix], as Python 3.8 to 3.13 define it:
    [[
    i = name.rfind('.')
    if 0 < i < len(name) - 1: return name[i:]
    else: return ''
    ]] *)
Definition suffix (p : t) : string :=
  let n := name p in
  match PyStr2.rfind "." n with
  | Some i =>
      if ((0 <? i) && (i <? String.length n - 1))%nat then PyStr2.drop i n
      else EmptyString
  | None => EmptyString
  end.

End PosixPath.

(* ===================================================================== *)
(** ** The packaging helper (tool/Python2Exe.py) *)
(* ===================================================================== *)

Module Python2Exe.

(** An exception of the helper: [EOFError] of [input()], or one raised
    by a call into a library. *)
Inductive Error : Type :=
| EOFError
| Raised (e : PyException).

Definition str_error (e : Error) : string :=
  match e with
  | EOFError => "EOF when reading a line"
  | Raised e' => exc_msg e'
  end.

Inductive Flow (A : Type) : Type :=
| Normal (a : A)
| Uncaught (e : Error)
| SystemExit (code : Z).
Arguments Normal {A} a.
Arguments Uncaught {A} e.
Arguments SystemExit {A} code.

(** What the helper reads and what it leaves behind: the lines still to
    be read on standard input, what was written on standard output, the
    log, the commands started with [subprocess.Popen] and the argument
    lists given to [PyInstaller.__main__.run]. *)
Record Terminal : Type := mkTerminal {
  stdin : list string;
  stdout : list string;
  logged : list LogRecord;
  launched : list (list string);
  compiled : list (list string)
}.

(** The machine the helper runs on. *)
Record Host : Type := mkHost {
  path_exists : string -> Outcome bool;             (* Path(p).exists() *)
  popen_failure : list string -> option PyException;   (* Popen(command) raises *)
  pyinstaller : list string -> Flow unit;           (* PyInstaller.__main__.run *)
  repr_list : list string -> string                 (* repr of a list of str *)
}.

Definition IO (A : Type) : Type := Terminal -> Flow A * Terminal.

Definition ret {A} (a : A) : IO A := fun k => (Normal a, k).

Definition bind {A B} (c : IO A) (f : A -> IO B) : IO B :=
  fun k =>
    match c k with
    | (Normal a, k') => f a k'
    | (Uncaught e, k') => (Uncaught e, k')
    | (SystemExit code, k') => (SystemExit code, k')
    end.

Declare Scope io_scope.
Delimit Scope io_scope with io.
Notation "x <- c ;; k" := (bind c (fun x => k))
  (at level 61, c at next level, right associativity) : io_scope.
Notation "c ;; k" := (bind c (fun _ => k))
  (at level 61, right associativity) : io_scope.

Definition raise {A} (e : Error) : IO A := fun k => (Uncaught e, k).

Definition sys_exit {A} (code : Z) : IO A := fun k => (SystemExit code, k).

Definition logging_emit (lvl : LogLevel) (msg : string) : IO unit :=
  fun k => (Normal tt,
            mkTerminal (stdin k) (stdout k) (logged k ++ [mkLog lvl msg])
                       (launched k) (compiled k)).

(** Text goes to standard output. *)
Definition write (text : string) : IO unit :=
  fun k => (Normal tt,
            mkTerminal (stdin k) (stdout k ++ [text]) (logged k)
                       (launched k) (compiled k)).

Definition newline : string := String (ascii_of_nat 10) EmptyString.

(** [print(text)] *)
Definition print (text : string) : IO unit := write (text ++ newline)%string.

(** [input(prompt)]: the prompt is written, a line is read; at the end of
    the input [EOFError] is raised. *)
Definition input (prompt : string) : IO string :=
  (write prompt ;;
   fun k =>
     match stdin k with
     | [] => (Uncaught EOFError, k)
     | line :: rest =>
         (Normal line,
          mkTerminal rest (stdout k) (logged k) (launched k) (compiled k))
     end)%io.

(** The result of a library call as a step of the helper. *)
Definition call {A} (r : Outcome A) : IO A :=
  fun k =>
    match r with
    | Return a => (Normal a, k)
    | Raise e => (Uncaught (Raised e), k)
    end.

(** [try: body  except Exception as e: handler e]; [SystemExit] is not
    an [Exception]. *)
Definition try_except {A} (body : IO A) (handler : Error -> IO A) : IO A :=
  fun k =>
    match body k with
    | (Uncaught e, k') => handler e k'
    | r => r
    end.

(** [subprocess.Popen(command)]: the process is started and not waited
    for. *)
Definition Popen (h : Host) (command : list string) : IO unit :=
  match popen_failure h command with
  | Some e => raise (Raised e)
  | None =>
      fun k => (Normal tt,
                mkTerminal (stdin k) (stdout k) (logged k)
                           (launched k ++ [command]) (compiled k))
  end.

(** [PyInstaller.__main__.run(args)] *)
Definition PyInstaller_run (h : Host) (args : list string) : IO unit :=
  fun k =>
    (pyinstaller h args,
     mkTerminal (stdin k) (stdout k) (logged k) (launched k)
                (compiled k ++ [args])).

(** [[
    def validate_file(file: str):
        path = Path(file)
        if not path.exists(): logging.error(...); sys.exit(1)
        if not path.suffix == ".py": logging.error(...); sys.exit(1)
        return path
    ]] *)
Definition validate_file (h : Host) (file : string) : IO PosixPath.t :=
  (let path := PosixPath.of_string file in
   ex <- call (path_exists h (PosixPath.to_string path)) ;;
   (if negb ex then
      logging_emit ERROR ("Error: File '" ++ file ++ "' does not exist.")%string ;;
      sys_exit 1
    else ret tt) ;;
   (if negb (String.eqb (PosixPath.suffix path) ".py") then
      logging_emit ERROR ("Error: File '" ++ file ++ "' is not a Python file.")%string ;;
      sys_exit 1
    else ret tt) ;;
   ret path)%io.

(** [answer in ["y", "n"]] *)
Definition yes_or_no (answer : string) : bool :=
  String.eqb answer "y" || String.eqb answer "n".

(** [[
    while True:
        answer = input(prompt).strip().lower()
        if answer in ["y", "n"]: return answer == "y"
        logging.warning("Invalid input. Please enter 'y' or 'n'.")
    ]]
    [fuel] bounds the number of turns of the loop; a turn reads a line,
    so one turn more than there are lines is enough. *)
Fixpoint get_yes_no_turns (fuel : nat) (prompt : string) : IO bool :=
  (answer <- input prompt ;;
   let answer := PyStr.lower (PyStr.strip answer) in
   if yes_or_no answer then ret (String.eqb answer "y")
   else
     logging_emit WARNING "Invalid input. Please enter 'y' or 'n'." ;;
     match fuel with
     | 0 => raise EOFError
     | S fuel' => get_yes_no_turns fuel' prompt
     end)%io.

Definition get_yes_no (prompt : string) : IO bool :=
  fun k => get_yes_no_turns (List.length (stdin k)) prompt k.

(** The class [Executer]; [file] is [self.file]. *)
Module Executer.

Record t : Type := mk { file : PosixPath.t }.

(** [Executer(file)] *)
Definition init (file : PosixPath.t) : t := mk file.

Definition get_imports (h : Host) (self : t) : IO (option (list string)) :=
  (logging_emit INFO
     "Enter all your third-party imports. View an example below of how the string should be entered." ;;
   string <- input ("Example: string = 'chardet, pandas'" ++ newline ++ newline)%string ;;
   let final_string := map PyStr.strip (PyStr2.split "," string) in
   logging_emit INFO ("Entered imports: " ++ repr_list h final_string)%string ;;
   if (2 <? String.length string)%nat then ret None
   else
     logging_emit INFO (newline ++ "Your entered imports:")%string ;;
     ret (Some final_string))%io.

Definition handle_test_file_arguments (self : t) : IO (list string) :=
  (argument_question <-
     get_yes_no (newline ++ "Do you need to input arguments for your test file? (y/n): ")%string ;;
   if argument_question : bool then
     test_file_arguments <- input "Separate each testing argument with a tilde (~): " ;;
     ret (map PyStr.strip (PyStr2.split "~" test_file_arguments))
   else ret [])%io.

Definition test_file (h : Host) (self : t) : IO bool :=
  (arguments <- handle_test_file_arguments self ;;
   let command := ["python"; PosixPath.to_string (file self)] ++ arguments in
   ex <- call (path_exists h (PosixPath.to_string (file self))) ;;
   if ex : bool then
     logging_emit INFO
       ("Testing file '" ++ PosixPath.to_string (file self)
        ++ "' with arguments: " ++ repr_list h arguments)%string ;;
     Popen h command ;;
     logging_emit INFO "Python syntax is fine! Ready to turn into an executable." ;;
     ret true
   else
     logging_emit ERROR
       ("Error: File '" ++ PosixPath.to_string (file self)
        ++ "' does not exist or is invalid.")%string ;;
     ret false)%io.

Definition compile_python (h : Host) (self : t) : IO unit :=
  (import_string <- get_imports h self ;;
   logging_emit INFO "Compiling Python into an executable...." ;;
   try_except
     match import_string with
     | Some imports =>
         PyInstaller_run h
           [PosixPath.to_string (file self); "--onefile"; "--windowed";
            ("--hidden-import=" ++ PyStr2.join "," imports)%string]
     | None =>
         PyInstaller_run h
           [PosixPath.to_string (file self); "--onefile"; "--windowed"]
     end
     (fun e => logging_emit ERROR ("Error during compilation: " ++ str_error e)%string))%io.

End Executer.

(** The [while compile_file] loop of [main]; a turn reads a line, so
    one turn more than there are lines is enough. *)
Fixpoint main_loop (h : Host) (executer : Executer.t) (fuel : nat) : IO unit :=
  (test_question <-
     input (newline ++ "Did your test pass or execute? (q to quit) " ++ newline)%string ;;
   let test_question := PyStr.lower (PyStr.strip test_question) in
   print newline ;;
   if String.eqb test_question "q" then ret tt
   else
     tested <- Executer.test_file h executer ;;
     if (tested : bool) && String.eqb test_question "y" then
       logging_emit INFO ("Results of file are:" ++ newline)%string ;;
       Executer.compile_python h executer
     else
       match fuel with
       | 0 => raise EOFError
       | S fuel' => main_loop h executer fuel'
       end)%io.

(** [main()], given [sys.argv]. *)
Definition main (h : Host) (argv : list string) : IO unit :=
  ((if (List.length argv <? 2)%nat then
      logging_emit ERROR "Usage: python script.py <filename>" ;;
      sys_exit 1
    else ret tt) ;;
   file <- validate_file h (nth 1 argv EmptyString) ;;
   let executer := Executer.init file in
   fun k => main_loop h executer (List.length (stdin k)) k)%io.

(** The exit status of the interpreter. *)
Definition exit_status {A} (f : Flow A) : Z :=
  match f with
  | Normal _ => 0
  | Uncaught _ => 1
  | SystemExit code => code
  end.

End Python2Exe.

(* ===================================================================== *)
(** ** Vocabulary of the specification *)
(* ===================================================================== *)

(** A run can end before [rest]: nothing is left, or the next character
    is outside the class. *)
Definition run_ends (cls : ascii -> bool) (rest : string) : Prop :=
  match rest with
  | EmptyString => True
  | String c _ => cls c = false
  end.

(** [MaximalRuns cls s ts]: [ts] lists, in order, the maximal runs of
    characters of [s] that are in [cls].  A run is not empty, all its
    characters are in the class, and what follows it is the end of the
    string or a character outside the class. *)
Inductive MaximalRuns (cls : ascii -> bool) : string -> list string -> Prop :=
| runs_end : MaximalRuns cls EmptyString []
| runs_skip c s ts :
    cls c = false -> MaximalRuns cls s ts ->
    MaximalRuns cls (String c s) ts
| runs_take t rest ts :
    t <> EmptyString -> PyStr.all_chars cls t = true -> run_ends cls rest ->
    MaximalRuns cls rest ts ->
    MaximalRuns cls (t ++ rest)%string (t :: ts).

(** A character that separates file names: a comma or white space. *)
Definition separator (c : ascii) : bool :=
  Ascii.eqb c ","%char || PyStr.isspace c.

(** The extension of [path] is [.csv] whatever the case of its letters:
    the path ends with four characters that, lowered, read [.csv]. *)
Definition csv_extension (path : string) : Prop :=
  exists stem ext : string,
    path = (stem ++ ext)%string /\ PyStr.lower ext = ".csv".

(** The three checks of the validator on one path, in the order the code
    makes them. *)
Definition passes_checks (w : World) (path : string) : bool :=
  match os_path_exists w path with
  | Return true =>
      match os_path_isfile w path with
      | Return true => PyStr.endswith (PyStr.lower path) ".csv"
      | _ => false
      end
  | _ => false
  end.

(** What the validator sends to the log for one path. *)
Definition validation_log (w : World) (path : string) : list LogRecord :=
  let crashed e :=
    [mkLog ERROR ("Error validating path " ++ path ++ ": " ++ exc_msg e)%string] in
  match os_path_exists w path with
  | Raise e => crashed e
  | Return false => [mkLog WARNING ("Path does not exist: " ++ path)%string]
  | Return true =>
      match os_path_isfile w path with
      | Raise e => crashed e
      | Return false => [mkLog WARNING ("Not a file: " ++ path)%string]
      | Return true =>
          if PyStr.endswith (PyStr.lower path) ".csv" then []
          else [mkLog WARNING ("Not a CSV file: " ++ path)%string]
      end
  end.

(** The datasets of the files of [paths] that are read without an
    exception, in the order of [paths]. *)
Definition dataset_of (w : World) (path : string) : list Pandas.DataFrame :=
  match read_csv w path with
  | Return df => [df]
  | Raise _ => []
  end.

Definition datasets_read (w : World) (paths : list string) : list Pandas.DataFrame :=
  flat_map (dataset_of w) paths.

(** What the reader sends to the log for one file. *)
Definition read_log (w : World) (file : string) : list LogRecord :=
  match read_csv w file with
  | Return _ => [mkLog INFO ("Successfully processed: " ++ file)%string]
  | Raise e =>
      if is_EmptyDataError e
      then [mkLog WARNING ("Empty file: " ++ file)%string]
      else [mkLog ERROR ("Error processing " ++ file ++ ": " ++ exc_msg e)%string]
  end.

(** The message of the warning that goes with no result. *)
Definition no_result_message (file_paths : list string) : string :=
  match file_paths with
  | [] => "No valid files to process"
  | _ => "No DataFrames were processed"
  end.

(** The state after more records went to the log. *)
Definition add_log (st : Runtime) (recs : list LogRecord) : Runtime :=
  mkRuntime (log st ++ recs) (written st) (self_dataframe st).

(** The paths the aggregator hands to the validator, and those it hands
    to the reader. *)
Definition parsed_paths (self : DataAggregator.t) : list string :=
  FileParser.parse_file_string (DataAggregator.file_string self)
                               (DataAggregator.base_path self).

Definition validated_paths (w : World) (self : DataAggregator.t) : list string :=
  filter (passes_checks w) (parsed_paths self).

(** What the validator and the reader of one run of the aggregator send
    to the log. *)
Definition stage_log (w : World) (self : DataAggregator.t) : list LogRecord :=
  flat_map (validation_log w) (parsed_paths self)
  ++ flat_map (read_log w) (validated_paths w self).

(** The file the aggregator writes. *)
Definition output_path (self : DataAggregator.t) : string :=
  OsPath.join (DataAggregator.base_path self) FileWriter.default_filename.

Definition Cell_eq_dec (a b : Pandas.Cell) : {a = b} + {a <> b}.
Proof. decide equality; [apply Z.eq_dec | apply string_dec]. Defined.

Definition row_eq_dec : forall a b : list Pandas.Cell, {a = b} + {a <> b} :=
  list_eq_dec Cell_eq_dec.

(* ===================================================================== *)
(** ** Vocabulary for the packaging helper *)
(* ===================================================================== *)

(** A line that is neither yes nor no once stripped and lowered. *)
Definition invalid_answer (line : string) : bool :=
  negb (Python2Exe.yes_or_no (PyStr.lower (PyStr.strip line))).

(** The record the helper logs for such a line. *)
Definition invalid_warning : LogRecord :=
  mkLog WARNING "Invalid input. Please enter 'y' or 'n'.".

(** The character [c] does not occur in [s]. *)
Definition free_of (c : ascii) (s : string) : bool :=
  PyStr.all_chars (fun a => negb (Ascii.eqb a c)) s.

(** The two prompts of [handle_test_file_arguments] and the prompt of
    [get_imports]. *)
Definition arguments_question : string :=
  (Python2Exe.newline
   ++ "Do you need to input arguments for your test file? (y/n): ")%string.

Definition arguments_prompt : string :=
  "Separate each testing argument with a tilde (~): ".

Definition imports_prompt : string :=
  ("Example: string = 'chardet, pandas'"
   ++ Python2Exe.newline ++ Python2Exe.newline)%string.

(** The command [test_file] starts. *)
Definition test_command (self : Python2Exe.Executer.t) (arguments : list string)
  : list string :=
  ["python"; PosixPath.to_string (Python2Exe.Executer.file self)] ++ arguments.

(** The arguments [compile_python] gives to PyInstaller when [line] is
    typed at the imports prompt. *)
Definition hidden_import (line : string) : string :=
  ("--hidden-import="
   ++ PyStr2.join "," (map PyStr.strip (PyStr2.split "," line)))%string.

Definition pyinstaller_args (self : Python2Exe.Executer.t) (line : string)
  : list string :=
  [PosixPath.to_string (Python2Exe.Executer.file self); "--onefile"; "--windowed"]
  ++ (if (2 <? String.length line)%nat then [] else [hidden_import line]).

(** The question of the loop of [main]. *)
Definition test_question_prompt : string :=
  (Python2Exe.newline ++ "Did your test pass or execute? (q to quit) "
   ++ Python2Exe.newline)%string.

(** One turn of the loop of [main], [again] being what the loop does
    when the turn ends without a [break]. *)
Definition main_turn (h : Python2Exe.Host) (executer : Python2Exe.Executer.t)
  (again : Python2Exe.IO unit) : Python2Exe.IO unit :=
  Python2Exe.bind (Python2Exe.input test_question_prompt) (fun test_question =>
  let test_question := PyStr.lower (PyStr.strip test_question) in
  Python2Exe.bind (Python2Exe.print Python2Exe.newline) (fun _ =>
  if String.eqb test_question "q" then Python2Exe.ret tt
  else
    Python2Exe.bind (Python2Exe.Executer.test_file h executer) (fun tested =>
    if (tested : bool) && String.eqb test_question "y" then
      Python2Exe.bind
        (Python2Exe.logging_emit INFO ("Results of file are:" ++ Python2Exe.newline)%string)
        (fun _ => Python2Exe.Executer.compile_python h executer)
    else again))).


(** A step of the helper that leaves on the input at most the lines it
    found there. *)
Definition reads_forward {A : Type} (c : Python2Exe.IO A) : Prop :=
  forall k,
    List.length (Python2Exe.stdin (snd (c k))) <= List.length (Python2Exe.stdin k).


(** The state after more text went to standard output and more records
    to the log. *)
Definition told (k : Python2Exe.Terminal) (rest : list string)
  (texts : list string) (recs : list LogRecord) : Python2Exe.Terminal :=
  Python2Exe.mkTerminal rest (Python2Exe.stdout k ++ texts)
    (Python2Exe.logged k ++ recs) (Python2Exe.launched k) (Python2Exe.compiled k).

(* ===================================================================== *)
(** ** A directory to run the program in *)
(* ===================================================================== *)

Module Scenario.

Import Pandas.

(** a.csv: header x, rows 1 and 2.  b.csv: header x, row 3.
    wide.csv: header x,y, one row.  header.csv: the header line x and
    no row.  blank.csv: no content at all.  broken.csv: not parseable.
    sub.csv: a directory.  notacsv.txt: a file with another extension.
    locked.csv: the file system refuses to answer about it. *)
Definition df_a : DataFrame := mkDataFrame ["x"] [[Num 1]; [Num 2]].
Definition df_b : DataFrame := mkDataFrame ["x"] [[Num 3]].
Definition df_wide : DataFrame := mkDataFrame ["x"; "y"] [[Num 4; Str "four"]].
Definition df_header : DataFrame := mkDataFrame ["x"] [].

Definition files : list string :=
  ["/data/a.csv"; "/data/b.csv"; "/data/wide.csv"; "/data/header.csv";
   "/data/blank.csv"; "/data/broken.csv"; "/data/notacsv.txt"; "/data/B.CSV"].

Definition directories : list string := ["/data"; "/data/sub.csv"].

Definition denied : PyException :=
  mkExc PermissionError "[Errno 13] Permission denied".

Definition exists_ (p : string) : Outcome bool :=
  if String.eqb p "/data/locked.csv" then Raise denied
  else Return (Pandas.mem p files || Pandas.mem p directories).

Definition isfile_ (p : string) : Outcome bool :=
  if String.eqb p "/data/locked.csv" then Raise denied
  else Return (Pandas.mem p files).

Definition read_ (p : string) : Outcome DataFrame :=
  if String.eqb p "/data/a.csv" then Return df_a
  else if String.eqb p "/data/b.csv" then Return df_b
  else if String.eqb p "/data/B.CSV" then Return df_b
  else if String.eqb p "/data/wide.csv" then Return df_wide
  else if String.eqb p "/data/header.csv" then Return df_header
  else if String.eqb p "/data/blank.csv"
       then Raise (mkExc EmptyDataError "No columns to parse from file")
  else if String.eqb p "/data/broken.csv"
       then Raise (mkExc ParserError "Error tokenizing data")
  else Raise (mkExc OSError "[Errno 2] No such file or directory").

(** The ordinary directory: every write succeeds. *)
Definition world : World :=
  mkWorld "/data" exists_ isfile_ read_ (fun _ _ => None).

(** The same directory on a full disk: every write fails. *)
Definition disk_full : PyException :=
  mkExc OSError "[Errno 28] No space left on device".

Definition world_disk_full : World :=
  mkWorld "/data" exists_ isfile_ read_ (fun _ _ => Some disk_full).

(** The state in which a run starts. *)
Definition start : Runtime := mkRuntime [] [] None.

Definition aggregator (file_string : string) : DataAggregator.t :=
  DataAggregator.mk file_string (getcwd world).

End Scenario.

(* ===================================================================== *)
(** ** A machine to run the helper on *)
(* ===================================================================== *)

Module HelperScenario.

(** [repr] of a list of strings that hold no quote and no backslash. *)
Definition repr_plain (l : list string) : string :=
  ("[" ++ PyStr2.join ", " (map (fun x => "'" ++ x ++ "'") l) ++ "]")%string.

(** script.py is the only file; every process starts; PyInstaller
    succeeds. *)
Definition host : Python2Exe.Host :=
  Python2Exe.mkHost
    (fun p => Return (String.eqb p "script.py"))
    (fun _ => None)
    (fun _ => Python2Exe.Normal tt)
    repr_plain.

(** The same machine with a PyInstaller that raises. *)
Definition host_failing : Python2Exe.Host :=
  Python2Exe.mkHost
    (fun p => Return (String.eqb p "script.py"))
    (fun _ => None)
    (fun _ => Python2Exe.Uncaught
                (Python2Exe.Raised (mkExc RuntimeError "build failed")))
    repr_plain.

Definition script : Python2Exe.Executer.t :=
  Python2Exe.Executer.init (PosixPath.of_string "script.py").

Definition missing : Python2Exe.Executer.t :=
  Python2Exe.Executer.init (PosixPath.of_string "gone.py").

(** A terminal on which the lines [lines] will be typed. *)
Definition typing (lines : list string) : Python2Exe.Terminal :=
  Python2Exe.mkTerminal lines [] [] [] [].

End HelperScenario.

(* ===================================================================== *)
(** * Verification *)
(* ===================================================================== *)

(** ** Strings and the tokenizer *)

Section Tokenizer.

Variable cls : ascii -> bool.

Lemma append_snoc (cur t : string) (a : ascii) :
  ((cur ++ String a EmptyString) ++ t = cur ++ String a t)%string.
Proof.
  induction cur as [|c cur IH]; simpl; [reflexivity | now rewrite IH].
Qed.

Lemma append_empty_r (s : string) : (s ++ EmptyString)%string = s.
Proof. induction s as [|c s IH]; simpl; [reflexivity | now rewrite IH]. Qed.

Lemma findall_from_stop (cur rest : string) :
  run_ends cls rest ->
  PyStr.findall_from cls cur rest
  = PyStr.emit cur (PyStr.findall_from cls EmptyString rest).
Proof.
  destruct rest as [|c r]; simpl; intros Hend.
  - reflexivity.
  - now rewrite Hend.
Qed.

(** The scanner swallows a whole run before it emits. *)
Lemma findall_from_run (t : string) :
  forall cur rest,
    PyStr.all_chars cls t = true -> run_ends cls rest ->
    PyStr.findall_from cls cur (t ++ rest)
    = PyStr.emit (cur ++ t) (PyStr.findall_from cls EmptyString rest).
Proof.
  induction t as [|a t IH]; intros cur rest Hall Hend.
  - simpl. rewrite append_empty_r. now apply findall_from_stop.
  - simpl in Hall. apply andb_prop in Hall as [Ha Ht].
    simpl. rewrite Ha, IH by assumption. now rewrite append_snoc.
Qed.

Lemma MaximalRuns_findall (s : string) (ts : list string) :
  MaximalRuns cls s ts -> PyStr.re_findall_class cls s = ts.
Proof.
  unfold PyStr.re_findall_class.
  induction 1 as [|c s ts Hc _ IH|t rest ts Hne Hall Hend _ IH].
  - reflexivity.
  - simpl. now rewrite Hc.
  - rewrite findall_from_run by assumption. rewrite IH. simpl.
    destruct t; [contradiction | reflexivity].
Qed.

Lemma MaximalRuns_total (s : string) : exists ts, MaximalRuns cls s ts.
Proof.
  induction s as [|c s [ts IH]].
  - exists []. constructor.
  - destruct (cls c) eqn:Hc.
    + assert (Hone : PyStr.all_chars cls (String c EmptyString) = true)
        by (simpl; now rewrite Hc).
      inversion IH as [Hs|c' s' ts' Hc' Hrest|t rest ts' Hne Hall Hend Hrest]; subst.
      * exists [String c EmptyString].
        apply (runs_take cls (String c EmptyString) EmptyString []).
        -- discriminate.
        -- exact Hone.
        -- exact I.
        -- constructor.
      * exists (String c EmptyString :: ts).
        apply (runs_take cls (String c EmptyString) (String c' s') ts).
        -- discriminate.
        -- exact Hone.
        -- exact Hc'.
        -- exact IH.
      * exists (String c t :: ts').
        apply (runs_take cls (String c t) rest ts').
        -- discriminate.
        -- simpl. now rewrite Hc.
        -- exact Hend.
        -- exact Hrest.
    + exists ts. now constructor.
Qed.

Lemma findall_MaximalRuns (s : string) :
  MaximalRuns cls s (PyStr.re_findall_class cls s).
Proof.
  destruct (MaximalRuns_total s) as [ts H].
  now rewrite (MaximalRuns_findall s ts H).
Qed.

Lemma MaximalRuns_chars (s : string) (ts : list string) :
  MaximalRuns cls s ts ->
  Forall (fun t => t <> EmptyString /\ PyStr.all_chars cls t = true) ts.
Proof. induction 1; auto. Qed.

Lemma emit_nil (cur : string) (l : list string) :
  PyStr.emit cur l = [] <-> cur = EmptyString /\ l = [].
Proof.
  destruct cur; simpl; split; try tauto; easy.
Qed.

Lemma findall_from_nil (s : string) :
  forall cur,
    PyStr.findall_from cls cur s = [] <->
    cur = EmptyString /\ PyStr.all_chars (fun c => negb (cls c)) s = true.
Proof.
  induction s as [|c s IH]; intros cur; simpl.
  - rewrite emit_nil. tauto.
  - destruct (cls c); simpl.
    + rewrite IH. split; [intros [H _] | intros [_ H]; discriminate].
      destruct cur; discriminate.
    + rewrite emit_nil, IH. tauto.
Qed.

End Tokenizer.

Lemma findall_from_ext (cls cls' : ascii -> bool) (s : string) :
  (forall c, cls c = cls' c) ->
  forall cur, PyStr.findall_from cls cur s = PyStr.findall_from cls' cur s.
Proof.
  intros Hext. induction s as [|c s IH]; intros cur; simpl.
  - reflexivity.
  - rewrite <- Hext. destruct (cls c); now rewrite IH.
Qed.

Lemma all_chars_ext (p q : ascii -> bool) (s : string) :
  (forall c, p c = q c) -> PyStr.all_chars p s = PyStr.all_chars q s.
Proof.
  intros Hext. induction s as [|c s IH]; simpl; [reflexivity|].
  now rewrite Hext, IH.
Qed.

Lemma file_parse_class_separator (c : ascii) :
  FileParser.file_parse_class c = negb (separator c).
Proof.
  unfold FileParser.file_parse_class, separator. now rewrite negb_orb.
Qed.

(** A string without white space is its own [strip()]. *)
Lemma lstrip_id (t : string) :
  PyStr.all_chars (fun c => negb (PyStr.isspace c)) t = true -> PyStr.lstrip t = t.
Proof.
  destruct t as [|c t]; simpl; [reflexivity|].
  intros H. apply andb_prop in H as [Hc _].
  apply negb_true_iff in Hc. now rewrite Hc.
Qed.

Lemma rstrip_id (t : string) :
  PyStr.all_chars (fun c => negb (PyStr.isspace c)) t = true -> PyStr.rstrip t = t.
Proof.
  induction t as [|c t IH]; simpl; [reflexivity|].
  intros H. apply andb_prop in H as [Hc Ht].
  apply negb_true_iff in Hc. rewrite (IH Ht), Hc.
  now destruct t.
Qed.

Lemma all_chars_weaken (p q : ascii -> bool) (s : string) :
  (forall c, p c = true -> q c = true) ->
  PyStr.all_chars p s = true -> PyStr.all_chars q s = true.
Proof.
  intros Hpq. induction s as [|c s IH]; simpl; [reflexivity|].
  intros H. apply andb_prop in H as [Hc Hs].
  now rewrite (Hpq c Hc), (IH Hs).
Qed.

Lemma strip_token (t : string) :
  PyStr.all_chars FileParser.file_parse_class t = true -> PyStr.strip t = t.
Proof.
  intros H.
  assert (Hsp : PyStr.all_chars (fun c => negb (PyStr.isspace c)) t = true).
  { revert H. apply all_chars_weaken. intros c Hc.
    unfold FileParser.file_parse_class in Hc.
    now apply andb_prop in Hc as [_ Hc]. }
  unfold PyStr.strip. now rewrite (lstrip_id t Hsp), (rstrip_id t Hsp).
Qed.

Lemma matches_MaximalRuns (s : string) :
  MaximalRuns (fun c => negb (separator c)) s (FileParser.matches s).
Proof.
  unfold FileParser.matches, PyStr.re_findall_class.
  rewrite (findall_from_ext _ (fun c => negb (separator c)) s
             file_parse_class_separator).
  apply findall_MaximalRuns.
Qed.

Lemma parse_file_string_map (s base : string) :
  FileParser.parse_file_string s base
  = map (OsPath.join base) (FileParser.matches s).
Proof.
  unfold FileParser.parse_file_string.
  apply map_ext_in. intros t Ht. f_equal. apply strip_token.
  pose proof (MaximalRuns_chars _ _ _ (matches_MaximalRuns s)) as Hall.
  rewrite Forall_forall in Hall. destruct (Hall t Ht) as [_ Hc].
  rewrite <- Hc. apply all_chars_ext, file_parse_class_separator.
Qed.

(** C4. The Input Parser returns, for every input string and base
    directory, exactly the maximal runs of characters that are neither a
    comma nor white space (the matches of [[^,\s]+]), in input order, each
    joined to the base directory by [os.path.join].  The runs are
    determined by the string alone; a string with no such run (only
    separators, or nothing) yields the empty sequence; every run yields
    one path, whether or not a file of that name exists and whatever its
    extension: the parser does not look at the file system. *)
Theorem parse_file_string_maximal_runs (file_string base_path : string) :
  exists tokens : list string,
    MaximalRuns (fun c => negb (separator c)) file_string tokens /\
    (forall ts, MaximalRuns (fun c => negb (separator c)) file_string ts ->
                ts = tokens) /\
    FileParser.parse_file_string file_string base_path
      = map (OsPath.join base_path) tokens /\
    List.length (FileParser.parse_file_string file_string base_path)
      = List.length tokens /\
    (FileParser.parse_file_string file_string base_path = [] <->
     PyStr.all_chars separator file_string = true).
Proof.
  exists (FileParser.matches file_string).
  pose proof (matches_MaximalRuns file_string) as Hruns.
  repeat split.
  - exact Hruns.
  - intros ts Hts.
    rewrite <- (MaximalRuns_findall _ _ _ Hts).
    now rewrite <- (MaximalRuns_findall _ _ _ Hruns).
  - apply parse_file_string_map.
  - rewrite parse_file_string_map. apply length_map.
  - rewrite parse_file_string_map. intros H.
    apply map_eq_nil in H. unfold FileParser.matches, PyStr.re_findall_class in H.
    apply findall_from_nil in H as [_ H]. rewrite <- H.
    apply all_chars_ext. intros c.
    now rewrite file_parse_class_separator, negb_involutive.
  - rewrite parse_file_string_map. intros H.
    replace (FileParser.matches file_string) with (@nil string); [reflexivity|].
    symmetry. unfold FileParser.matches, PyStr.re_findall_class.
    apply findall_from_nil. split; [reflexivity|]. rewrite <- H.
    apply all_chars_ext. intros c.
    now rewrite file_parse_class_separator, negb_involutive.
Qed.

(** ** Run-time states *)

Lemma add_log_nil (st : Runtime) : add_log st [] = st.
Proof. destruct st; unfold add_log; simpl. now rewrite app_nil_r. Qed.

Lemma add_log_app (st : Runtime) (a b : list LogRecord) :
  add_log (add_log st a) b = add_log st (a ++ b).
Proof. unfold add_log; simpl. now rewrite app_assoc. Qed.

Lemma emit_run (lvl : LogLevel) (msg : string) (st : Runtime) :
  logging.emit lvl msg st = (Return tt, add_log st [mkLog lvl msg]).
Proof. reflexivity. Qed.

#[local] Ltac run_py :=
  unfold try_except, bind, call, ret, raise,
    logging.warning, logging.info, logging.error;
  simpl; rewrite ?emit_run.

(** ** Suffixes and case *)

Lemma endswith_unfold (s suffix : string) :
  PyStr.endswith s suffix
  = (String.eqb s suffix
     || match s with
        | EmptyString => false
        | String _ s' => PyStr.endswith s' suffix
        end).
Proof. now destruct s. Qed.

Lemma endswith_iff (s suffix : string) :
  PyStr.endswith s suffix = true <-> exists stem, s = (stem ++ suffix)%string.
Proof.
  induction s as [|c s IH]; rewrite endswith_unfold.
  - rewrite orb_false_r, String.eqb_eq. split.
    + intros <-. now exists EmptyString.
    + intros [[|a stem] H]; simpl in H; [assumption | discriminate].
  - rewrite orb_true_iff, String.eqb_eq, IH. split.
    + intros [<- | [stem ->]].
      * now exists EmptyString.
      * now exists (String c stem).
    + intros [[|a stem] H]; simpl in H.
      * now left.
      * right. exists stem. now injection H.
Qed.

Lemma lower_app (a b : string) :
  PyStr.lower (a ++ b) = (PyStr.lower a ++ PyStr.lower b)%string.
Proof. induction a as [|c a IH]; simpl; [reflexivity | now rewrite IH]. Qed.

Lemma lower_app_inv (a : string) :
  forall p b,
    PyStr.lower p = (a ++ b)%string ->
    exists p1 p2, p = (p1 ++ p2)%string /\ PyStr.lower p1 = a /\ PyStr.lower p2 = b.
Proof.
  induction a as [|c a IH]; intros p b H.
  - exists EmptyString, p. now simpl in *.
  - destruct p as [|d p]; simpl in H; [discriminate|].
    injection H as Hd Hp. destruct (IH p b Hp) as (p1 & p2 & -> & H1 & H2).
    exists (String d p1), p2. simpl. now rewrite Hd, H1.
Qed.

(** The suffix test of the code is the extension test of the
    specification. *)
Lemma endswith_lower_csv (path : string) :
  PyStr.endswith (PyStr.lower path) ".csv" = true <-> csv_extension path.
Proof.
  rewrite endswith_iff. unfold csv_extension. split.
  - intros [stem H]. apply lower_app_inv in H as (p1 & p2 & -> & _ & H2).
    now exists p1, p2.
  - intros (stem & ext & -> & Hext). exists (PyStr.lower stem).
    now rewrite lower_app, Hext.
Qed.

(** ** The validator's loop *)

Section Validator.

Variable w : World.

Lemma validate_one_run (path : string) (valid_paths : list string) (st : Runtime) :
  FileValidator.validate_one w path valid_paths st
  = (Return (valid_paths ++ filter (passes_checks w) [path]),
     add_log st (validation_log w path)).
Proof.
  unfold FileValidator.validate_one, passes_checks, validation_log. run_py.
  destruct (os_path_exists w path) as [[|]|e]; simpl;
    rewrite ?app_nil_r; try reflexivity.
  destruct (os_path_isfile w path) as [[|]|e]; simpl;
    rewrite ?app_nil_r; try reflexivity.
  destruct (PyStr.endswith (PyStr.lower path) ".csv"); simpl;
    rewrite ?app_nil_r, ?add_log_nil; reflexivity.
Qed.

Lemma validate_loop_run (file_paths : list string) :
  forall (valid_paths : list string) (st : Runtime),
    for_in file_paths (FileValidator.validate_one w) valid_paths st
    = (Return (valid_paths ++ filter (passes_checks w) file_paths),
       add_log st (flat_map (validation_log w) file_paths)).
Proof.
  induction file_paths as [|p ps IH]; intros acc st.
  - simpl. unfold ret. now rewrite app_nil_r, add_log_nil.
  - cbn [for_in]. unfold bind. rewrite validate_one_run, IH.
    rewrite add_log_app, <- app_assoc. simpl.
    now destruct (passes_checks w p).
Qed.

Lemma validate_file_paths_run (file_paths : list string) (st : Runtime) :
  FileValidator.validate_file_paths w file_paths st
  = (Return (filter (passes_checks w) file_paths),
     add_log st (flat_map (validation_log w) file_paths)).
Proof. unfold FileValidator.validate_file_paths. now rewrite validate_loop_run. Qed.

Lemma passes_checks_iff (path : string) :
  passes_checks w path = true <->
  os_path_exists w path = Return true /\
  os_path_isfile w path = Return true /\
  csv_extension path.
Proof.
  rewrite <- endswith_lower_csv. unfold passes_checks.
  destruct (os_path_exists w path) as [[|]|e];
    [ | split; [discriminate | intros [H _]; discriminate] .. ].
  destruct (os_path_isfile w path) as [[|]|e];
    [ | split; [discriminate | intros (_ & H & _); discriminate] .. ].
  tauto.
Qed.

End Validator.

(** C3. For every ordered list of candidate paths (and whatever the file
    system answers), the Path Validator returns exactly the sublist, in
    the order of the input, of the paths that exist, are regular files
    and have the extension [.csv] in any letter case: a returned path
    passed the three checks, and a path of the input that passes the
    three checks is returned. *)
Theorem validate_file_paths_exact (w : World) (file_paths : list string)
  (st : Runtime) :
  exists (valid_paths : list string) (st' : Runtime),
    FileValidator.validate_file_paths w file_paths st = (Return valid_paths, st') /\
    valid_paths = filter (passes_checks w) file_paths /\
    (forall path,
        passes_checks w path = true <->
        os_path_exists w path = Return true /\
        os_path_isfile w path = Return true /\
        csv_extension path) /\
    (forall path,
        In path valid_paths <->
        In path file_paths /\
        os_path_exists w path = Return true /\
        os_path_isfile w path = Return true /\
        csv_extension path).
Proof.
  eexists _, _. split; [apply validate_file_paths_run|].
  split; [reflexivity|]. split; [apply passes_checks_iff|].
  intros path. rewrite filter_In, passes_checks_iff. tauto.
Qed.

(** C8. Validation of one path never makes the Validator abort.  The
    call returns (it raises nothing), whatever the paths and whatever the
    checks answer; its result and its log are put together path by path,
    so that the paths after a bad one are validated like the others.  A
    path is kept and logs nothing; or a check answered no, the path is
    dropped and one warning naming it is logged; or a check raised, the
    path is dropped and one error naming it and the exception is logged. *)
Theorem validate_file_paths_never_aborts (w : World) (file_paths : list string)
  (st : Runtime) :
  FileValidator.validate_file_paths w file_paths st
  = (Return (flat_map (fun p => if passes_checks w p then [p] else []) file_paths),
     add_log st (flat_map (validation_log w) file_paths))
  /\
  forall path,
    (passes_checks w path = true /\ validation_log w path = [])
    \/ (passes_checks w path = false /\
        (os_path_exists w path = Return false \/
         os_path_exists w path = Return true /\
         (os_path_isfile w path = Return false \/
          os_path_isfile w path = Return true /\
          PyStr.endswith (PyStr.lower path) ".csv" = false)) /\
        exists reason,
          validation_log w path = [mkLog WARNING (reason ++ path)%string])
    \/ (passes_checks w path = false /\
        exists e,
          (os_path_exists w path = Raise e \/
           os_path_exists w path = Return true /\ os_path_isfile w path = Raise e) /\
          validation_log w path
          = [mkLog ERROR ("Error validating path " ++ path ++ ": " ++ exc_msg e)%string]).
Proof.
  split.
  - rewrite validate_file_paths_run. do 2 f_equal.
    induction file_paths as [|p ps IH]; simpl; [reflexivity|].
    rewrite IH. now destruct (passes_checks w p).
  - intros path. unfold passes_checks, validation_log.
    destruct (os_path_exists w path) as [[|]|e].
    + destruct (os_path_isfile w path) as [[|]|e'].
      * destruct (PyStr.endswith (PyStr.lower path) ".csv").
        -- left. now split.
        -- right; left. repeat split; eauto 8.
      * right; left. repeat split; eauto 8.
      * right; right. split; [reflexivity|]. exists e'. split; eauto.
    + right; left. repeat split; eauto 8.
    + right; right. split; [reflexivity|]. exists e. split; eauto.
Qed.

(** ** Stacked frames *)

Section Frames.

Import Pandas.

Lemma mem_In (c : string) (cols : list string) : mem c cols = true <-> In c cols.
Proof.
  unfold mem. rewrite existsb_exists. split.
  - intros (x & Hx & Heq). apply String.eqb_eq in Heq. now subst.
  - intros H. exists c. split; [assumption | apply String.eqb_refl].
Qed.

Lemma add_labels_keeps (cols : list string) :
  forall acc c, In c acc -> In c (add_labels acc cols).
Proof.
  unfold add_labels. induction cols as [|x cols IH]; intros acc c H; simpl.
  - assumption.
  - apply IH. destruct (mem x acc); [assumption|].
    apply in_or_app. now left.
Qed.

Lemma add_labels_adds (cols : list string) :
  forall acc c, In c cols -> In c (add_labels acc cols).
Proof.
  induction cols as [|x cols IH]; intros acc c H; [contradiction|].
  destruct H as [-> | H].
  - unfold add_labels. simpl. apply (add_labels_keeps cols).
    destruct (mem c acc) eqn:Hm.
    + now apply mem_In.
    + apply in_or_app. right. now left.
  - unfold add_labels. simpl. now apply IH.
Qed.

Lemma union_from_keeps (dfs : list DataFrame) :
  forall acc c,
    In c acc ->
    In c (fold_left (fun a df => add_labels a (columns df)) dfs acc).
Proof.
  induction dfs as [|d dfs IH]; intros acc c H; simpl.
  - assumption.
  - apply IH. now apply add_labels_keeps.
Qed.

Lemma union_from_adds (dfs : list DataFrame) :
  forall acc df c,
    In df dfs -> In c (columns df) ->
    In c (fold_left (fun a df => add_labels a (columns df)) dfs acc).
Proof.
  induction dfs as [|d dfs IH]; intros acc df c Hdf Hc; [contradiction|].
  simpl. destruct Hdf as [-> | Hdf].
  - apply union_from_keeps. now apply add_labels_adds.
  - now apply (IH _ df).
Qed.

(** Every column of a stacked frame is a column of the stack. *)
Lemma union_columns_In (dfs : list DataFrame) (df : DataFrame) (c : string) :
  In df dfs -> In c (columns df) -> In c (union_columns dfs).
Proof. apply union_from_adds. Qed.

Lemma cell_at_absent (cols : list string) :
  forall row c, ~ In c cols -> cell_at cols row c = NaN.
Proof.
  induction cols as [|x cols IH]; intros row c H; simpl; [reflexivity|].
  destruct row as [|v row]; [reflexivity|].
  destruct (String.eqb x c) eqn:Heq.
  - apply String.eqb_eq in Heq. subst. exfalso. apply H. now left.
  - apply IH. intros Hin. apply H. now right.
Qed.

Lemma cell_at_map (f : string -> Cell) (new : list string) (c : string) :
  cell_at new (map f new) c = if mem c new then f c else NaN.
Proof.
  induction new as [|x new IH]; simpl; [reflexivity|].
  rewrite (String.eqb_sym c x).
  destruct (String.eqb x c) eqn:Heq; simpl.
  - apply String.eqb_eq in Heq. now subst.
  - exact IH.
Qed.

(** Laying a row out on more columns keeps its cells. *)
Lemma cell_at_reindex (cols new : list string) (row : list Cell) (c : string) :
  (In c cols -> In c new) ->
  cell_at new (reindex cols new row) c = cell_at cols row c.
Proof.
  intros Hsub. unfold reindex. rewrite cell_at_map.
  destruct (mem c new) eqn:Hm; [reflexivity|].
  symmetry. apply cell_at_absent. intros Hc.
  apply Hsub, mem_In in Hc. congruence.
Qed.

Lemma length_aligned_rows (new : list string) (dfs : list DataFrame) :
  List.length (flat_map (aligned_rows new) dfs) = list_sum (map nrows dfs).
Proof.
  induction dfs as [|d dfs IH]; simpl; [reflexivity|].
  rewrite length_app, IH. unfold aligned_rows, nrows. now rewrite length_map.
Qed.

Lemma nrows_stack (dfs : list DataFrame) :
  nrows (stack dfs) = list_sum (map nrows dfs).
Proof. unfold nrows at 1, stack. simpl. apply length_aligned_rows. Qed.

End Frames.

(** ** Counting occurrences *)

Section Counting.

Context {A B : Type}.
Variable eqA : forall x y : A, {x = y} + {x <> y}.
Variable eqB : forall x y : B, {x = y} + {x <> y}.

Lemma count_occ_filter (f : A -> bool) (l : list A) (x : A) :
  f x = true -> count_occ eqA (filter f l) x = count_occ eqA l x.
Proof.
  intros Hx. induction l as [|y l IH]; simpl; [reflexivity|].
  destruct (eqA y x) as [-> | Hne].
  - rewrite Hx. simpl. destruct (eqA x x); [now rewrite IH | contradiction].
  - destruct (f y); simpl; [|exact IH].
    destruct (eqA y x); [contradiction | exact IH].
Qed.

Lemma count_occ_map_ge (g : A -> B) (l : list A) (x : A) :
  count_occ eqA l x <= count_occ eqB (map g l) (g x).
Proof.
  induction l as [|y l IH]; simpl; [lia|].
  destruct (eqA y x) as [-> | Hne].
  - destruct (eqB (g x) (g x)); [lia | contradiction].
  - destruct (eqB (g y) (g x)); lia.
Qed.

Lemma count_occ_flat_map_ge (f : A -> list B) (l : list A) (x : A) (y : B) :
  count_occ eqA l x * count_occ eqB (f x) y <= count_occ eqB (flat_map f l) y.
Proof.
  induction l as [|z l IH]; simpl; [lia|].
  rewrite count_occ_app.
  destruct (eqA z x) as [-> | Hne]; simpl; lia.
Qed.

Lemma length_flat_map_ge (f : A -> list B) (l : list A) (x : A) :
  count_occ eqA l x * List.length (f x) <= List.length (flat_map f l).
Proof.
  induction l as [|z l IH]; simpl; [lia|].
  rewrite length_app.
  destruct (eqA z x) as [-> | Hne]; simpl; lia.
Qed.

End Counting.

Lemma flat_map_flat_map {A B C : Type} (f : A -> list B) (g : B -> list C)
  (l : list A) :
  flat_map g (flat_map f l) = flat_map (fun x => flat_map g (f x)) l.
Proof.
  induction l as [|x l IH]; simpl; [reflexivity|].
  now rewrite flat_map_app, IH.
Qed.

(** ** The reader's loop *)

Section Reader.

Variable w : World.

Lemma read_one_run (file : string) (dataframes : list Pandas.DataFrame)
  (st : Runtime) :
  CSVProcessor.read_one w file dataframes st
  = (Return (dataframes ++ dataset_of w file), add_log st (read_log w file)).
Proof.
  unfold CSVProcessor.read_one, dataset_of, read_log. run_py.
  destruct (read_csv w file) as [df|e]; simpl.
  - reflexivity.
  - destruct (is_EmptyDataError e); run_py; now rewrite app_nil_r.
Qed.

Lemma read_loop_run (file_paths : list string) :
  forall (dataframes : list Pandas.DataFrame) (st : Runtime),
    for_in file_paths (CSVProcessor.read_one w) dataframes st
    = (Return (dataframes ++ datasets_read w file_paths),
       add_log st (flat_map (read_log w) file_paths)).
Proof.
  induction file_paths as [|p ps IH]; intros acc st.
  - simpl. unfold ret. now rewrite app_nil_r, add_log_nil.
  - cbn [for_in]. unfold bind. rewrite read_one_run, IH.
    rewrite add_log_app, <- app_assoc. reflexivity.
Qed.

Lemma read_and_concat_csvs_run (file_paths : list string) (st : Runtime) :
  CSVProcessor.read_and_concat_csvs w file_paths st
  = match datasets_read w file_paths with
    | [] =>
        (Return None,
         add_log st (flat_map (read_log w) file_paths
                     ++ [mkLog WARNING (no_result_message file_paths)]))
    | dfs =>
        (Return (Some (Pandas.stack dfs)),
         add_log st (flat_map (read_log w) file_paths))
    end.
Proof.
  unfold CSVProcessor.read_and_concat_csvs.
  destruct file_paths as [|p ps].
  - reflexivity.
  - unfold bind at 1. rewrite read_loop_run. cbn [app].
    destruct (datasets_read w (p :: ps)) as [|d ds].
    + run_py. unfold add_log. simpl. now rewrite <- !app_assoc.
    + reflexivity.
Qed.

End Reader.

(** What the Reader/Merger returns does not depend on the state it
    starts in. *)
Lemma read_and_concat_csvs_result (w : World) (file_paths : list string)
  (st st' : Runtime) :
  fst (CSVProcessor.read_and_concat_csvs w file_paths st)
  = fst (CSVProcessor.read_and_concat_csvs w file_paths st').
Proof.
  rewrite !read_and_concat_csvs_run.
  now destruct (datasets_read w file_paths).
Qed.

(** C1. In every run in which at least one file is read successfully, the
    Reader/Merger returns a CombinedDataset whose row count is the sum of
    the row counts of the successfully read files, and whose rows are
    those files' rows, file after file in the order of the input and in
    each file's own order; a row keeps, under every column name, the cell
    it had in its file (columns it did not have are missing values). *)
Theorem read_and_concat_csvs_rows (w : World) (file_paths : list string)
  (st : Runtime) :
  datasets_read w file_paths <> [] ->
  exists (combined : Pandas.DataFrame) (st' : Runtime),
    CSVProcessor.read_and_concat_csvs w file_paths st
      = (Return (Some combined), st') /\
    Pandas.nrows combined
      = list_sum (map Pandas.nrows (datasets_read w file_paths)) /\
    Pandas.rows combined
      = flat_map (Pandas.aligned_rows (Pandas.columns combined))
                 (datasets_read w file_paths) /\
    (forall df row c,
        In df (datasets_read w file_paths) ->
        Pandas.cell_at (Pandas.columns combined)
          (Pandas.reindex (Pandas.columns df) (Pandas.columns combined) row) c
        = Pandas.cell_at (Pandas.columns df) row c).
Proof.
  intros Hread. rewrite read_and_concat_csvs_run.
  destruct (datasets_read w file_paths) as [|d ds] eqn:Hds; [contradiction|].
  eexists _, _. split; [reflexivity|]. split; [apply nrows_stack|].
  split; [reflexivity|].
  intros df row c Hdf. apply cell_at_reindex.
  now apply union_columns_In.
Qed.

(** C5, as the code has it.  The batch never aborts: the loop over the
    files returns, for every list of paths, the datasets of the files
    that were read, in order, and the Reader/Merger returns these
    datasets stacked (or no result when there is none); the files before
    and after any one file are read all the same.  A file whose read
    raises the empty-data error is skipped with one
    warning; a file whose read raises anything else is skipped with one
    error; neither contributes a dataset, hence no row.  A file that is
    read without an exception is kept and logged as a success, whatever
    its number of rows. *)
Theorem read_failures_are_skipped (w : World) (file_paths : list string)
  (st : Runtime) :
  for_in file_paths (CSVProcessor.read_one w) [] st
    = (Return (datasets_read w file_paths),
       add_log st (flat_map (read_log w) file_paths)) /\
  (exists st',
      CSVProcessor.read_and_concat_csvs w file_paths st
      = (Return match datasets_read w file_paths with
                | [] => None
                | dfs => Some (Pandas.stack dfs)
                end, st')) /\
  (forall before file after,
      datasets_read w (before ++ file :: after)
      = datasets_read w before ++ dataset_of w file ++ datasets_read w after) /\
  (forall file,
      match read_csv w file with
      | Raise e =>
          dataset_of w file = [] /\
          read_log w file
          = [if is_EmptyDataError e
             then mkLog WARNING ("Empty file: " ++ file)%string
             else mkLog ERROR
                    ("Error processing " ++ file ++ ": " ++ exc_msg e)%string]
      | Return df =>
          dataset_of w file = [df] /\
          read_log w file
          = [mkLog INFO ("Successfully processed: " ++ file)%string]
      end).
Proof.
  split; [apply read_loop_run|]. split; [|split].
  - rewrite read_and_concat_csvs_run.
    destruct (datasets_read w file_paths); eexists; reflexivity.
  - intros before file after. unfold datasets_read.
    now rewrite flat_map_app.
  - intros file. unfold dataset_of, read_log.
    destruct (read_csv w file) as [df|e]; [now split|].
    split; [reflexivity|]. now destruct (is_EmptyDataError e).
Qed.

(** ** The writer and the orchestrator *)

Section Orchestrator.

Variable w : World.

Lemma save_dataframe_run (dataframe : Pandas.DataFrame) (base_path filename : string)
  (st : Runtime) :
  FileWriter.save_dataframe w dataframe base_path filename st
  = match to_csv_failure w dataframe (OsPath.join base_path filename) with
    | None =>
        (Return (OsPath.join base_path filename),
         mkRuntime
           (log st ++ [mkLog INFO ("Aggregated data saved to "
                                   ++ OsPath.join base_path filename)%string])
           (written st ++ [(OsPath.join base_path filename, dataframe)])
           (self_dataframe st))
    | Some e =>
        (Raise e, add_log st [mkLog ERROR ("Error saving file: " ++ exc_msg e)%string])
    end.
Proof.
  unfold FileWriter.save_dataframe, to_csv, try_except, bind.
  destruct (to_csv_failure w dataframe (OsPath.join base_path filename)) as [e|];
    reflexivity.
Qed.

Lemma process_run (self : DataAggregator.t) (st : Runtime) :
  DataAggregator.process w self st
  = match datasets_read w (validated_paths w self) with
    | [] =>
        (Return None,
         mkRuntime
           (log st ++ stage_log w self
            ++ [mkLog WARNING (no_result_message (validated_paths w self));
                mkLog WARNING "No data to save"])
           (written st) None)
    | dfs =>
        match to_csv_failure w (Pandas.stack dfs) (output_path self) with
        | None =>
            (Return (Some (output_path self)),
             mkRuntime
               (log st ++ stage_log w self
                ++ [mkLog INFO ("Aggregated data saved to "
                                ++ output_path self)%string])
               (written st ++ [(output_path self, Pandas.stack dfs)])
               (Some (Pandas.stack dfs)))
        | Some e =>
            (Return None,
             mkRuntime
               (log st ++ stage_log w self
                ++ [mkLog ERROR ("Error saving file: " ++ exc_msg e)%string;
                    mkLog ERROR ("Data aggregation failed: " ++ exc_msg e)%string])
               (written st) (Some (Pandas.stack dfs)))
        end
    end.
Proof.
  unfold DataAggregator.process, DataAggregator.stages,
    DataAggregator.on_exception, try_except.
  unfold bind at 1. fold (parsed_paths self).
  rewrite validate_file_paths_run. fold (validated_paths w self).
  unfold bind at 1. rewrite read_and_concat_csvs_run.
  unfold stage_log, output_path.
  destruct (datasets_read w (validated_paths w self)) as [|d ds].
  - unfold bind, DataAggregator.set_dataframe, DataAggregator.get_dataframe,
      logging.warning, logging.emit, ret, add_log.
    cbn [log written self_dataframe]. now rewrite <- !app_assoc.
  - unfold bind at 1. unfold DataAggregator.set_dataframe at 1.
    unfold bind at 1. unfold DataAggregator.get_dataframe at 1.
    cbn [self_dataframe]. unfold bind at 1. rewrite save_dataframe_run.
    destruct (to_csv_failure w (Pandas.stack (d :: ds))
                (OsPath.join (DataAggregator.base_path self)
                             FileWriter.default_filename)) as [e|].
    + unfold bind, logging.error, logging.emit, ret, add_log.
      cbn [log written self_dataframe]. now rewrite <- !app_assoc.
    + unfold ret, add_log. cbn [log written self_dataframe].
      now rewrite <- !app_assoc.
Qed.

End Orchestrator.

(** C7. For every CombinedDataset, base directory and filename, the Table
    Writer either succeeds, and then it returns the path made by joining
    the base directory with the filename, having written the dataset
    there and logged it; or the serialization raises, and then the Writer
    logs the failure as an error and raises the same exception to its
    caller, nothing being written.  The filename, when the caller gives
    none, is aggregated_data.csv. *)
Theorem save_dataframe_returns_path_or_reraises (w : World)
  (dataframe : Pandas.DataFrame) (base_path filename : string) (st : Runtime) :
  FileWriter.default_filename = "aggregated_data.csv" /\
  match to_csv_failure w dataframe (OsPath.join base_path filename) with
  | None =>
      exists st',
        FileWriter.save_dataframe w dataframe base_path filename st
          = (Return (OsPath.join base_path filename), st') /\
        written st' = written st ++ [(OsPath.join base_path filename, dataframe)] /\
        log st' = log st ++ [mkLog INFO ("Aggregated data saved to "
                                         ++ OsPath.join base_path filename)%string]
  | Some e =>
      exists st',
        FileWriter.save_dataframe w dataframe base_path filename st
          = (Raise e, st') /\
        written st' = written st /\
        log st' = log st ++ [mkLog ERROR ("Error saving file: " ++ exc_msg e)%string]
  end.
Proof.
  split; [reflexivity|]. rewrite save_dataframe_run.
  destruct (to_csv_failure w dataframe (OsPath.join base_path filename)) as [e|];
    eexists; repeat split; reflexivity.
Qed.

(** C2, as the code has it.  For every file-list string and every file
    system, [DataAggregator.process] returns and never raises.  When no
    valid file was found, and more generally when no file was read as a
    dataset, it returns [None], writes nothing and ends on the warning
    "No data to save".  When at least one file was read as a dataset, the
    combined dataset is kept on the aggregator, whatever its number of
    rows; if the write succeeds the output path is returned and the
    dataset is on disk under it; if the write raises, the exception is
    caught, logged as an error and turned into [None].  The [except]
    clause does this for whatever the [try] block raises. *)
Theorem process_never_raises (w : World) (self : DataAggregator.t) (st : Runtime) :
  exists (result : option string) (st' : Runtime),
    DataAggregator.process w self st = (Return result, st') /\
    (validated_paths w self = [] -> result = None) /\
    (datasets_read w (validated_paths w self) = [] ->
     result = None /\ written st' = written st /\ self_dataframe st' = None /\
     exists earlier,
       log st' = log st ++ earlier ++ [mkLog WARNING "No data to save"]) /\
    (forall d ds,
        datasets_read w (validated_paths w self) = d :: ds ->
        self_dataframe st' = Some (Pandas.stack (d :: ds)) /\
        match to_csv_failure w (Pandas.stack (d :: ds)) (output_path self) with
        | None =>
            result = Some (output_path self) /\
            written st' = written st ++ [(output_path self, Pandas.stack (d :: ds))]
        | Some e =>
            result = None /\ written st' = written st /\
            exists earlier,
              log st' = log st ++ earlier
                        ++ [mkLog ERROR ("Data aggregation failed: " ++ exc_msg e)%string]
        end) /\
    (forall (body : Py (option string)) (st0 st1 : Runtime) (e : PyException),
        body st0 = (Raise e, st1) ->
        try_except body DataAggregator.on_exception st0
        = (Return None,
           add_log st1
             [mkLog ERROR ("Data aggregation failed: " ++ exc_msg e)%string])).
Proof.
  assert (Hcatch :
    forall (body : Py (option string)) (st0 st1 : Runtime) (e : PyException),
      body st0 = (Raise e, st1) ->
      try_except body DataAggregator.on_exception st0
      = (Return None,
         add_log st1
           [mkLog ERROR ("Data aggregation failed: " ++ exc_msg e)%string])).
  { intros body st0 st1 e Hbody. unfold try_except. now rewrite Hbody. }
  rewrite process_run.
  destruct (datasets_read w (validated_paths w self)) as [|d ds] eqn:Hread.
  - eexists _, _. split; [reflexivity|].
    split; [reflexivity|]. split; [|split; [discriminate | exact Hcatch]].
    intros _. repeat split.
    exists (stage_log w self
            ++ [mkLog WARNING (no_result_message (validated_paths w self))]).
    cbn [log]. now rewrite <- !app_assoc.
  - cbv beta iota zeta.
    destruct (to_csv_failure w (Pandas.stack (d :: ds)) (output_path self))
      as [e|] eqn:Hwrite.
    + eexists _, _. split; [reflexivity|]. split; [|split; [|split]].
      * reflexivity.
      * discriminate.
      * intros d' ds' Heq. injection Heq as <- <-. rewrite Hwrite.
        repeat split.
        exists (stage_log w self
                ++ [mkLog ERROR ("Error saving file: " ++ exc_msg e)%string]).
        cbn [log]. now rewrite <- !app_assoc.
      * exact Hcatch.
    + eexists _, _. split; [reflexivity|]. split; [|split; [|split]].
      * intros Hnone. rewrite Hnone in Hread. discriminate.
      * discriminate.
      * intros d' ds' Heq. injection Heq as <- <-. rewrite Hwrite.
        now repeat split.
      * exact Hcatch.
Qed.

(** C2 fails as stated where the combined dataset is empty but exists.
    header.csv holds a header line and no row: it is read as a dataset of
    zero rows, the combined dataset is empty, and [process] writes it and
    returns the output path, not [None]. *)
Lemma process_returns_path_for_empty_dataset :
  exists (combined : Pandas.DataFrame) (st' : Runtime),
    DataAggregator.process Scenario.world (Scenario.aggregator "header.csv")
                           Scenario.start
      = (Return (Some "/data/aggregated_data.csv"), st') /\
    self_dataframe st' = Some combined /\
    written st' = [("/data/aggregated_data.csv", combined)] /\
    Pandas.empty combined = true /\
    Pandas.nrows combined = 0.
Proof. eexists _, _. repeat split. Qed.

(** C5 fails as stated for a file whose read produces zero rows without
    raising: header.csv is read as a dataset of zero rows, it is not
    skipped and no warning is logged; the loop keeps the dataset and logs
    a success, and the Reader/Merger returns a dataset instead of "no
    result". *)
Lemma zero_row_file_is_not_skipped :
  read_csv Scenario.world "/data/header.csv" = Return Scenario.df_header /\
  Pandas.nrows Scenario.df_header = 0 /\
  CSVProcessor.read_one Scenario.world "/data/header.csv" [] Scenario.start
    = (Return [Scenario.df_header],
       add_log Scenario.start
         [mkLog INFO "Successfully processed: /data/header.csv"]) /\
  fst (CSVProcessor.read_and_concat_csvs Scenario.world ["/data/header.csv"]
         Scenario.start)
    = Return (Some Scenario.df_header).
Proof. repeat split. Qed.

(** C6. For every list of validated paths from which no dataset is read
    (the empty list among them), the Reader/Merger returns the no-result
    value [None], raising nothing, and the last record it logs is a
    warning; and an Aggregator whose validated paths are these returns no
    path, writes nothing, and ends its log on that warning and the
    warning "No data to save". *)
Theorem no_dataset_no_result (w : World) (file_paths : list string) (st : Runtime) :
  datasets_read w file_paths = [] ->
  (exists (msg : string) (st' : Runtime),
      CSVProcessor.read_and_concat_csvs w file_paths st = (Return None, st') /\
      written st' = written st /\
      log st' = log st ++ flat_map (read_log w) file_paths ++ [mkLog WARNING msg]) /\
  (forall (self : DataAggregator.t) (st0 : Runtime),
      validated_paths w self = file_paths ->
      exists (msg : string) (earlier : list LogRecord) (st' : Runtime),
        DataAggregator.process w self st0 = (Return None, st') /\
        written st' = written st0 /\
        log st' = log st0 ++ earlier
                  ++ [mkLog WARNING msg; mkLog WARNING "No data to save"]).
Proof.
  intros Hread. split.
  - rewrite read_and_concat_csvs_run, Hread.
    eexists _, _. repeat split.
  - intros self st0 Hself. rewrite process_run, Hself, Hread.
    exists (no_result_message file_paths), (stage_log w self).
    eexists. repeat split.
Qed.

Lemma dataset_of_read (w : World) (path : string) (df : Pandas.DataFrame) :
  read_csv w path = Return df -> dataset_of w path = [df].
Proof. unfold dataset_of. now intros ->. Qed.

(** C10. No stage removes duplicates.  When a path that passes the three
    checks and is readable occurs among the paths parsed from the file
    string, the Validator returns it as many times as it occurs there,
    the Reader/Merger returns a CombinedDataset made of one block of rows
    per validated path, in order, and each row of the file is in the
    CombinedDataset at least as many times as the path occurs times the
    row occurs in the file; so the file accounts for that many times its
    row count. *)
Theorem duplicated_paths_multiply_rows (w : World) (self : DataAggregator.t)
  (st : Runtime) (path : string) (df : Pandas.DataFrame) :
  In path (parsed_paths self) ->
  passes_checks w path = true ->
  read_csv w path = Return df ->
  exists (valid_paths : list string) (st1 : Runtime)
         (combined : Pandas.DataFrame) (st2 : Runtime),
    FileValidator.validate_file_paths w (parsed_paths self) st
      = (Return valid_paths, st1) /\
    count_occ string_dec valid_paths path
      = count_occ string_dec (parsed_paths self) path /\
    CSVProcessor.read_and_concat_csvs w valid_paths st1
      = (Return (Some combined), st2) /\
    Pandas.rows combined
      = flat_map (fun q => flat_map (Pandas.aligned_rows (Pandas.columns combined))
                                    (dataset_of w q))
                 valid_paths /\
    (forall row,
        count_occ string_dec (parsed_paths self) path
        * count_occ row_eq_dec (Pandas.rows df) row
        <= count_occ row_eq_dec (Pandas.rows combined)
             (Pandas.reindex (Pandas.columns df) (Pandas.columns combined) row)) /\
    count_occ string_dec (parsed_paths self) path * Pandas.nrows df
      <= Pandas.nrows combined.
Proof.
  intros Hin Hpass Hread.
  pose proof (dataset_of_read w path df Hread) as Hdf.
  assert (Hcount : count_occ string_dec (filter (passes_checks w) (parsed_paths self)) path
                   = count_occ string_dec (parsed_paths self) path)
    by now apply count_occ_filter.
  assert (Hne : datasets_read w (filter (passes_checks w) (parsed_paths self)) <> []).
  { intros Hnil.
    assert (Hd : In df (datasets_read w (filter (passes_checks w) (parsed_paths self)))).
    { apply in_flat_map. exists path. split.
      - apply filter_In. now split.
      - rewrite Hdf. now left. }
    rewrite Hnil in Hd. contradiction. }
  rewrite validate_file_paths_run.
  exists (filter (passes_checks w) (parsed_paths self)),
         (add_log st (flat_map (validation_log w) (parsed_paths self))).
  rewrite read_and_concat_csvs_run.
  destruct (datasets_read w (filter (passes_checks w) (parsed_paths self)))
    as [|d ds] eqn:Hds; [contradiction|].
  eexists _, _. split; [reflexivity|]. split; [exact Hcount|].
  split; [reflexivity|].
  assert (Hrows :
    Pandas.rows (Pandas.stack (d :: ds))
    = flat_map (fun q => flat_map
                  (Pandas.aligned_rows (Pandas.columns (Pandas.stack (d :: ds))))
                  (dataset_of w q))
               (filter (passes_checks w) (parsed_paths self))).
  { rewrite <- flat_map_flat_map. fold (datasets_read w).
    unfold datasets_read in Hds |- *. rewrite Hds. reflexivity. }
  split; [exact Hrows|]. split.
  - intros row. rewrite Hrows, <- Hcount.
    eapply Nat.le_trans;
      [|apply (count_occ_flat_map_ge string_dec row_eq_dec _ _ path)].
    apply Nat.mul_le_mono_l. rewrite Hdf. simpl. rewrite app_nil_r.
    apply count_occ_map_ge.
  - unfold Pandas.nrows at 2. rewrite Hrows, <- Hcount.
    eapply Nat.le_trans; [|apply (length_flat_map_ge string_dec _ _ path)].
    apply Nat.mul_le_mono_l. rewrite Hdf. simpl. rewrite app_nil_r.
    unfold Pandas.aligned_rows, Pandas.nrows. now rewrite length_map.
Qed.

(** ** The theorems at work in the directory of [Scenario] *)

(** C1 at the files a.csv (two rows), blank.csv (unreadable) and b.csv
    (one row): the combined dataset has three rows. *)
Lemma read_and_concat_csvs_rows_witness :
  datasets_read Scenario.world ["/data/a.csv"; "/data/blank.csv"; "/data/b.csv"]
    <> [] /\
  exists combined st',
    CSVProcessor.read_and_concat_csvs Scenario.world
      ["/data/a.csv"; "/data/blank.csv"; "/data/b.csv"] Scenario.start
      = (Return (Some combined), st') /\
    Pandas.nrows combined = 3.
Proof.
  assert (H : datasets_read Scenario.world
                ["/data/a.csv"; "/data/blank.csv"; "/data/b.csv"] <> [])
    by (vm_compute; discriminate).
  split; [exact H|].
  destruct (read_and_concat_csvs_rows Scenario.world
              ["/data/a.csv"; "/data/blank.csv"; "/data/b.csv"] Scenario.start H)
    as (combined & st' & Hrun & Hrows & _).
  exists combined, st'. split; [exact Hrun|].
  rewrite Hrows. reflexivity.
Defined.

(** C6 at the files blank.csv and broken.csv, neither of which can be
    read, and at the file string that names them and notacsv.txt. *)
Lemma no_dataset_no_result_witness :
  datasets_read Scenario.world ["/data/blank.csv"; "/data/broken.csv"] = [] /\
  fst (CSVProcessor.read_and_concat_csvs Scenario.world
         ["/data/blank.csv"; "/data/broken.csv"] Scenario.start)
    = Return None /\
  fst (DataAggregator.process Scenario.world
         (Scenario.aggregator "blank.csv, broken.csv notacsv.txt") Scenario.start)
    = Return None.
Proof.
  assert (H : datasets_read Scenario.world
                ["/data/blank.csv"; "/data/broken.csv"] = [])
    by reflexivity.
  split; [exact H|].
  destruct (no_dataset_no_result Scenario.world
              ["/data/blank.csv"; "/data/broken.csv"] Scenario.start H)
    as [(msg & st' & Hread & _) Hagg].
  split.
  - rewrite Hread. reflexivity.
  - destruct (Hagg (Scenario.aggregator "blank.csv, broken.csv notacsv.txt")
                   Scenario.start eq_refl)
      as (msg' & earlier & st'' & Hprocess & _).
    rewrite Hprocess. reflexivity.
Defined.

(** C10 at the file string "a.csv, b.csv a.csv": a.csv is named twice,
    is validated twice, and its two rows are in the combined dataset
    twice each. *)
Lemma duplicated_paths_multiply_rows_witness :
  In "/data/a.csv" (parsed_paths (Scenario.aggregator "a.csv, b.csv a.csv")) /\
  passes_checks Scenario.world "/data/a.csv" = true /\
  read_csv Scenario.world "/data/a.csv" = Return Scenario.df_a /\
  exists valid_paths combined,
    count_occ string_dec valid_paths "/data/a.csv" = 2 /\
    2 * Pandas.nrows Scenario.df_a <= Pandas.nrows combined /\
    fst (FileValidator.validate_file_paths Scenario.world
           (parsed_paths (Scenario.aggregator "a.csv, b.csv a.csv")) Scenario.start)
      = Return valid_paths /\
    fst (CSVProcessor.read_and_concat_csvs Scenario.world valid_paths Scenario.start)
      = Return (Some combined).
Proof.
  assert (Hin : In "/data/a.csv"
                   (parsed_paths (Scenario.aggregator "a.csv, b.csv a.csv")))
    by (simpl; now left).
  assert (Hpass : passes_checks Scenario.world "/data/a.csv" = true)
    by reflexivity.
  assert (Hread : read_csv Scenario.world "/data/a.csv" = Return Scenario.df_a)
    by reflexivity.
  repeat (split; [assumption|]).
  destruct (duplicated_paths_multiply_rows Scenario.world
              (Scenario.aggregator "a.csv, b.csv a.csv") Scenario.start
              "/data/a.csv" Scenario.df_a Hin Hpass Hread)
    as (valid_paths & st1 & combined & st2 & Hval & Hcount & Hcat & _ & _ & Hn).
  exists valid_paths, combined. repeat split.
  - rewrite Hcount. reflexivity.
  - exact Hn.
  - rewrite Hval. reflexivity.
  - rewrite (read_and_concat_csvs_result _ _ _ st1), Hcat. reflexivity.
Defined.

(** ** End-to-end runs *)

(** "a.csv, b.csv": the output holds the header x and the rows 1, 2, 3. *)
Example run_two_files :
  exists st',
    DataAggregator.process Scenario.world (Scenario.aggregator "a.csv, b.csv")
                           Scenario.start
      = (Return (Some "/data/aggregated_data.csv"), st') /\
    written st'
      = [("/data/aggregated_data.csv",
          Pandas.mkDataFrame ["x"] [[Pandas.Num 1]; [Pandas.Num 2]; [Pandas.Num 3]])].
Proof. eexists. split; reflexivity. Qed.

(** "a.csv, missing.csv": the output holds the rows of a.csv, and a
    warning names missing.csv. *)
Example run_missing_file :
  exists st',
    DataAggregator.process Scenario.world (Scenario.aggregator "a.csv, missing.csv")
                           Scenario.start
      = (Return (Some "/data/aggregated_data.csv"), st') /\
    written st' = [("/data/aggregated_data.csv", Scenario.df_a)] /\
    In (mkLog WARNING "Path does not exist: /data/missing.csv") (log st').
Proof. eexists. repeat split. now left. Qed.

(** "notacsv.txt": no output, and a warning about the extension. *)
Example run_wrong_extension :
  DataAggregator.process Scenario.world (Scenario.aggregator "notacsv.txt")
                         Scenario.start
  = (Return None,
     mkRuntime [mkLog WARNING "Not a CSV file: /data/notacsv.txt";
                mkLog WARNING "No valid files to process";
                mkLog WARNING "No data to save"]
               [] None).
Proof. reflexivity. Qed.

(** A full disk: the writer raises, the orchestrator reports no path. *)
Example run_disk_full :
  FileWriter.save_dataframe Scenario.world_disk_full Scenario.df_a "/data"
                            FileWriter.default_filename Scenario.start
  = (Raise Scenario.disk_full,
     add_log Scenario.start
       [mkLog ERROR "Error saving file: [Errno 28] No space left on device"]) /\
  fst (DataAggregator.process Scenario.world_disk_full
         (Scenario.aggregator "a.csv") Scenario.start)
  = Return None.
Proof. split; reflexivity. Qed.

(** Separators of every kind, a token that is an absolute path, and a
    base directory that ends with a slash. *)
Example parse_mixed_separators :
  FileParser.parse_file_string " a.csv,,b.csv /etc/x.csv ," "/data/"
  = ["/data/a.csv"; "/data/b.csv"; "/etc/x.csv"].
Proof. reflexivity. Qed.

(* ===================================================================== *)
(** * Further properties of the aggregation script *)
(* ===================================================================== *)

(** ** The parser on composed strings *)

Lemma emit_app (cur : string) (l l' : list string) :
  PyStr.emit cur l ++ l' = PyStr.emit cur (l ++ l').
Proof. now destruct cur. Qed.

(** A character outside the class cuts the scan in two independent
    scans. *)
Lemma findall_from_cut (cls : ascii -> bool) (c : ascii) (s1 s2 : string) :
  cls c = false ->
  forall cur,
    PyStr.findall_from cls cur (s1 ++ String c s2)
    = PyStr.findall_from cls cur s1 ++ PyStr.findall_from cls EmptyString s2.
Proof.
  intros Hc. induction s1 as [|a s1 IH]; intros cur; simpl.
  - rewrite Hc. now rewrite emit_app.
  - destruct (cls a).
    + apply IH.
    + rewrite IH. now rewrite emit_app.
Qed.

(** X3.  The file names of a string cut at a separator are those of the part
    before it followed by those of the part after it: the parser has no
    memory across a comma or a white space, and separators at either end
    or in a row add nothing. *)
Theorem parse_file_string_cut (s1 s2 base_path : string) (c : ascii) :
  separator c = true ->
  FileParser.parse_file_string (s1 ++ String c s2) base_path
  = FileParser.parse_file_string s1 base_path
    ++ FileParser.parse_file_string s2 base_path.
Proof.
  intros Hsep. rewrite !parse_file_string_map, <- map_app. f_equal.
  unfold FileParser.matches, PyStr.re_findall_class.
  apply findall_from_cut.
  rewrite file_parse_class_separator, Hsep. reflexivity.
Qed.

Lemma parse_file_string_cut_witness :
  FileParser.parse_file_string ("a.csv b.csv" ++ String ","%char " c.csv") "/data"
  = FileParser.parse_file_string "a.csv b.csv" "/data"
    ++ FileParser.parse_file_string " c.csv" "/data".
Proof.
  apply (parse_file_string_cut "a.csv b.csv" " c.csv" "/data" ","%char).
  reflexivity.
Defined.

(** ** Paths outside the base directory *)

Lemma matches_strip (s t : string) :
  In t (FileParser.matches s) -> PyStr.strip t = t.
Proof.
  intros Ht. apply strip_token.
  pose proof (MaximalRuns_chars _ _ _ (matches_MaximalRuns s)) as Hall.
  rewrite Forall_forall in Hall. destruct (Hall t Ht) as [_ Hc].
  rewrite <- Hc. apply all_chars_ext, file_parse_class_separator.
Qed.

(** X4.  The base directory does not confine the inputs.  A file name of the
    file string that starts with a slash is taken as it is, whatever the
    base directory; if it passes the three checks it is among the paths
    the aggregator reads. *)
Theorem absolute_file_name_escapes_base_path (w : World) (self : DataAggregator.t)
  (t : string) :
  In t (FileParser.matches (DataAggregator.file_string self)) ->
  PyStr.startswith t "/" = true ->
  In t (parsed_paths self) /\
  (passes_checks w t = true -> In t (validated_paths w self)).
Proof.
  intros Ht Habs.
  assert (Hin : In t (parsed_paths self)).
  { unfold parsed_paths, FileParser.parse_file_string.
    apply in_map_iff. exists t. split; [|exact Ht].
    rewrite (matches_strip _ _ Ht). unfold OsPath.join. now rewrite Habs. }
  split; [exact Hin|].
  intros Hpass. unfold validated_paths. apply filter_In. now split.
Qed.

Lemma absolute_file_name_escapes_base_path_witness :
  In "/etc/x.csv" (parsed_paths (DataAggregator.mk "a.csv, /etc/x.csv" "/data")).
Proof.
  assert (Ht : In "/etc/x.csv" (FileParser.matches "a.csv, /etc/x.csv"))
    by (vm_compute; tauto).
  assert (Habs : PyStr.startswith "/etc/x.csv" "/" = true) by reflexivity.
  exact (proj1 (absolute_file_name_escapes_base_path Scenario.world
                  (DataAggregator.mk "a.csv, /etc/x.csv" "/data") "/etc/x.csv"
                  Ht Habs)).
Defined.

(** ** The validator on its own output *)

Lemma filter_idempotent {A : Type} (f : A -> bool) (l : list A) :
  filter f (filter f l) = filter f l.
Proof.
  induction l as [|x l IH]; simpl; [reflexivity|].
  destruct (f x) eqn:Hx; simpl; [now rewrite Hx, IH | exact IH].
Qed.

Lemma validation_log_passes (w : World) (path : string) :
  passes_checks w path = true -> validation_log w path = [].
Proof.
  unfold passes_checks, validation_log.
  destruct (os_path_exists w path) as [[|]|e]; try discriminate.
  destruct (os_path_isfile w path) as [[|]|e']; try discriminate.
  now intros ->.
Qed.

Lemma validation_log_valid_paths (w : World) (l : list string) :
  flat_map (validation_log w) (filter (passes_checks w) l) = [].
Proof.
  induction l as [|p l IH]; simpl; [reflexivity|].
  destruct (passes_checks w p) eqn:Hp; simpl; [|exact IH].
  now rewrite (validation_log_passes w p Hp), IH.
Qed.

(** X5.  Validation is idempotent: the validator given its own output returns
    it unchanged and logs nothing. *)
Theorem validate_file_paths_idempotent (w : World) (file_paths : list string)
  (st : Runtime) :
  exists (valid_paths : list string) (st1 : Runtime),
    FileValidator.validate_file_paths w file_paths st = (Return valid_paths, st1) /\
    FileValidator.validate_file_paths w valid_paths st1 = (Return valid_paths, st1).
Proof.
  eexists _, _. split; [apply validate_file_paths_run|].
  rewrite validate_file_paths_run, filter_idempotent, validation_log_valid_paths.
  now rewrite add_log_nil.
Qed.

(** ** Every file name is accounted for in the log *)

Lemma validation_log_names_path (w : World) (path : string) :
  passes_checks w path = false ->
  exists r pre post,
    validation_log w path = [r] /\ message r = (pre ++ path ++ post)%string.
Proof.
  unfold passes_checks, validation_log. intros Hfail.
  destruct (os_path_exists w path) as [[|]|e].
  - destruct (os_path_isfile w path) as [[|]|e'].
    + rewrite Hfail. eexists _, "Not a CSV file: ", EmptyString.
      split; [reflexivity|]. simpl. now rewrite append_empty_r.
    + eexists _, "Not a file: ", EmptyString.
      split; [reflexivity|]. simpl. now rewrite append_empty_r.
    + eexists _, "Error validating path ", (": " ++ exc_msg e')%string.
      split; reflexivity.
  - eexists _, "Path does not exist: ", EmptyString.
    split; [reflexivity|]. simpl. now rewrite append_empty_r.
  - eexists _, "Error validating path ", (": " ++ exc_msg e)%string.
    split; reflexivity.
Qed.

Lemma read_log_names_path (w : World) (path : string) :
  exists r pre post,
    read_log w path = [r] /\ message r = (pre ++ path ++ post)%string.
Proof.
  unfold read_log. destruct (read_csv w path) as [df|e].
  - eexists _, "Successfully processed: ", EmptyString.
    split; [reflexivity|]. simpl. now rewrite append_empty_r.
  - destruct (is_EmptyDataError e).
    + eexists _, "Empty file: ", EmptyString.
      split; [reflexivity|]. simpl. now rewrite append_empty_r.
    + eexists _, "Error processing ", (": " ++ exc_msg e)%string.
      split; reflexivity.
Qed.

Lemma stage_log_length (w : World) (l : list string) :
  List.length (flat_map (validation_log w) l
               ++ flat_map (read_log w) (filter (passes_checks w) l))
  = List.length l.
Proof.
  rewrite length_app. induction l as [|p l IH]; simpl; [reflexivity|].
  rewrite length_app.
  destruct (passes_checks w p) eqn:Hp.
  - rewrite (validation_log_passes w p Hp). simpl. rewrite length_app.
    destruct (read_log_names_path w p) as (r & _ & _ & -> & _). simpl. lia.
  - destruct (validation_log_names_path w p Hp) as (r & _ & _ & -> & _).
    simpl. lia.
Qed.

(** X6.  No file name is dropped in silence.  The log of a run of the
    aggregator grows by one record for each file name found in the file
    string, then by one or two closing records; and each file name is
    named in the message of one of these records (a warning or an error
    of the validator, or the record of the reader for a validated
    path). *)
Theorem process_log_accounts_for_every_file_name (w : World)
  (self : DataAggregator.t) (st : Runtime) :
  exists closing : list LogRecord,
    log (snd (DataAggregator.process w self st))
      = log st ++ stage_log w self ++ closing /\
    (List.length closing = 1 \/ List.length closing = 2) /\
    List.length (stage_log w self) = List.length (parsed_paths self) /\
    (forall path,
        In path (parsed_paths self) ->
        exists r pre post,
          In r (stage_log w self) /\ message r = (pre ++ path ++ post)%string).
Proof.
  assert (Hnames :
    forall path, In path (parsed_paths self) ->
      exists r pre post,
        In r (stage_log w self) /\ message r = (pre ++ path ++ post)%string).
  { intros path Hin. unfold stage_log.
    destruct (passes_checks w path) eqn:Hp.
    - destruct (read_log_names_path w path) as (r & pre & post & Hr & Hm).
      exists r, pre, post. split; [|exact Hm].
      apply in_or_app. right. apply in_flat_map. exists path. split.
      + unfold validated_paths. apply filter_In. now split.
      + rewrite Hr. now left.
    - destruct (validation_log_names_path w path Hp) as (r & pre & post & Hr & Hm).
      exists r, pre, post. split; [|exact Hm].
      apply in_or_app. left. apply in_flat_map. exists path. split; [exact Hin|].
      rewrite Hr. now left. }
  assert (Hlen : List.length (stage_log w self) = List.length (parsed_paths self))
    by apply stage_log_length.
  rewrite process_run.
  destruct (datasets_read w (validated_paths w self)) as [|d ds].
  - eexists. split; [reflexivity|]. split; [now right|]. now split.
  - cbv beta iota zeta.
    destruct (to_csv_failure w (Pandas.stack (d :: ds)) (output_path self)).
    + eexists. split; [reflexivity|]. split; [now right|]. now split.
    + eexists. split; [reflexivity|]. split; [now left|]. now split.
Qed.

(** ** The output file as an input *)

Lemma default_filename_relative :
  PyStr.startswith FileWriter.default_filename "/" = false.
Proof. reflexivity. Qed.

Lemma append_assoc_str (a b c : string) :
  ((a ++ b) ++ c = a ++ (b ++ c))%string.
Proof. induction a as [|x a IH]; simpl; [reflexivity | now rewrite IH]. Qed.

Lemma output_path_shape (self : DataAggregator.t) :
  exists stem, output_path self = (stem ++ "aggregated_data.csv")%string.
Proof.
  unfold output_path, OsPath.join. rewrite default_filename_relative.
  destruct (String.eqb (DataAggregator.base_path self) EmptyString
            || PyStr.endswith (DataAggregator.base_path self) "/").
  - now exists (DataAggregator.base_path self).
  - exists (DataAggregator.base_path self ++ "/")%string.
    unfold FileWriter.default_filename. now rewrite append_assoc_str.
Qed.


(** X7.  The aggregator can take its own output as an input.  The path it
    writes has the extension [.csv]; when the file string names
    aggregated_data.csv, that path is among the paths parsed, and once
    the file exists it is among the paths validated and read. *)
Theorem output_file_is_an_acceptable_input (w : World) (self : DataAggregator.t) :
  In "aggregated_data.csv" (FileParser.matches (DataAggregator.file_string self)) ->
  In (output_path self) (parsed_paths self) /\
  csv_extension (output_path self) /\
  (os_path_exists w (output_path self) = Return true ->
   os_path_isfile w (output_path self) = Return true ->
   In (output_path self) (validated_paths w self)).
Proof.
  intros Ht.
  assert (Hin : In (output_path self) (parsed_paths self)).
  { unfold parsed_paths, FileParser.parse_file_string, output_path.
    apply in_map_iff. exists "aggregated_data.csv". split; [|exact Ht].
    now rewrite (matches_strip _ _ Ht). }
  assert (Hext : csv_extension (output_path self)).
  { destruct (output_path_shape self) as [stem ->].
    exists (stem ++ "aggregated_data")%string, ".csv". split; [|reflexivity].
    now rewrite append_assoc_str. }
  repeat split; try assumption.
  intros Hex Hfile. unfold validated_paths. apply filter_In. split; [exact Hin|].
  apply passes_checks_iff. now repeat split.
Qed.

Lemma output_file_is_an_acceptable_input_witness :
  csv_extension
    (output_path (DataAggregator.mk "a.csv aggregated_data.csv" "/data")).
Proof.
  assert (Ht : In "aggregated_data.csv"
                  (FileParser.matches "a.csv aggregated_data.csv"))
    by (vm_compute; tauto).
  exact (proj1 (proj2 (output_file_is_an_acceptable_input Scenario.world
                         (DataAggregator.mk "a.csv aggregated_data.csv" "/data")
                         Ht))).
Defined.

(** ** What a returned path stands for *)

(** X8.  When the aggregator returns a path, that path is the output path, the
    dataset written under it is the one kept on the aggregator, and it is
    the datasets of the validated files that could be read, stacked: its
    row count is the sum of theirs, and the write did not fail. *)
Theorem process_path_names_the_stacked_datasets (w : World)
  (self : DataAggregator.t) (st st' : Runtime) (p : string) :
  DataAggregator.process w self st = (Return (Some p), st') ->
  p = output_path self /\
  exists combined : Pandas.DataFrame,
    written st' = written st ++ [(p, combined)] /\
    self_dataframe st' = Some combined /\
    to_csv_failure w combined p = None /\
    combined = Pandas.stack (datasets_read w (validated_paths w self)) /\
    Pandas.nrows combined
      = list_sum (map Pandas.nrows (datasets_read w (validated_paths w self))).
Proof.
  rewrite process_run.
  destruct (datasets_read w (validated_paths w self)) as [|d ds];
    [discriminate|].
  cbv beta iota zeta.
  destruct (to_csv_failure w (Pandas.stack (d :: ds)) (output_path self))
    as [e|] eqn:Hwrite; [discriminate|].
  intros H. injection H as <- <-. split; [reflexivity|].
  exists (Pandas.stack (d :: ds)). cbn [written self_dataframe].
  repeat split; try reflexivity; try assumption. apply nrows_stack.
Qed.

Lemma process_path_names_the_stacked_datasets_witness :
  exists combined st',
    written st' = [("/data/aggregated_data.csv", combined)] /\
    Pandas.nrows combined = 3.
Proof.
  assert (H : DataAggregator.process Scenario.world
                (Scenario.aggregator "a.csv, b.csv") Scenario.start
              = (Return (Some "/data/aggregated_data.csv"),
                 snd (DataAggregator.process Scenario.world
                        (Scenario.aggregator "a.csv, b.csv") Scenario.start)))
    by reflexivity.
  destruct (process_path_names_the_stacked_datasets _ _ _ _ _ H)
    as (_ & combined & Hw & _ & _ & _ & Hn).
  exists combined, (snd (DataAggregator.process Scenario.world
                           (Scenario.aggregator "a.csv, b.csv") Scenario.start)).
  split; [exact Hw|]. rewrite Hn. reflexivity.
Defined.

(** ** The script *)

Section Main.

Variable w : World.

(** The aggregator [main] builds, and the state in which it runs it. *)
Let aggregator_of (argv : list string) : DataAggregator.t :=
  DataAggregator.mk (nth 1 argv EmptyString) (getcwd w).

Let fresh (st : Runtime) : Runtime := mkRuntime (log st) (written st) None.

Lemma main_run (argv : list string) (k : Script.Console) :
  Script.main w argv k
  = if (List.length argv <? 2)%nat then
      (Script.SystemExit 1%Z,
       Script.mkConsole
         (add_log (Script.runtime k)
            [mkLog ERROR "Please provide a comma-separated list of CSV files"])
         (Script.stdout k))
    else
      match DataAggregator.process w (aggregator_of argv) (fresh (Script.runtime k)) with
      | (Return result, st') =>
          (Script.Normal tt,
           Script.mkConsole st'
             (Script.stdout k
              ++ [if Script.truthy result
                  then ("Processing complete. Output file: "
                        ++ Script.format_result result)%string
                  else "Processing failed. Check logs for details."]))
      | (Raise e, st') =>
          (Script.SystemExit 1%Z,
           Script.mkConsole
             (add_log st'
                [mkLog ERROR ("Unexpected error in main execution: "
                              ++ exc_msg e)%string])
             (Script.stdout k))
      end.
Proof.
  unfold Script.main, Script.try_except_Exception.
  destruct (List.length argv <? 2)%nat.
  - reflexivity.
  - unfold Script.bind at 1. unfold Script.ret at 1.
    unfold Script.bind at 1. unfold Script.lift at 1.
    unfold DataAggregator.init, bind, DataAggregator.set_dataframe, ret.
    cbn [Script.runtime Script.stdout].
    unfold Script.bind at 1. unfold Script.lift at 1.
    cbn [Script.runtime Script.stdout].
    fold (fresh (Script.runtime k)). fold (aggregator_of argv).
    destruct (DataAggregator.process w (aggregator_of argv)
                (fresh (Script.runtime k))) as [[result|e] st'].
    + cbn [Script.runtime Script.stdout].
      destruct (Script.truthy result); reflexivity.
    + reflexivity.
Qed.


End Main.

(** X1.  The exit status of the script is 1 exactly when the file-list
    argument is missing, and 0 otherwise: a run that finds no valid file,
    reads no dataset or fails to write still ends with status 0.  Without
    the argument the script logs one error, prints nothing, starts no
    aggregation and writes nothing; the [SystemExit] it raises is not
    taken for an unexpected error by the [except Exception] around it. *)
Theorem main_exit_status (w : World) (argv : list string) (k : Script.Console) :
  (Script.exit_status (fst (Script.main w argv k)) = 1%Z
   <-> (List.length argv < 2)%nat) /\
  (Script.exit_status (fst (Script.main w argv k)) = 0%Z
   <-> (2 <= List.length argv)%nat) /\
  ((List.length argv < 2)%nat ->
   Script.main w argv k
   = (Script.SystemExit 1%Z,
      Script.mkConsole
        (add_log (Script.runtime k)
           [mkLog ERROR "Please provide a comma-separated list of CSV files"])
        (Script.stdout k))).
Proof.
  rewrite main_run.
  destruct (List.length argv <? 2)%nat eqn:Hlen.
  - apply Nat.ltb_lt in Hlen. simpl. repeat split; try easy; lia.
  - apply Nat.ltb_ge in Hlen.
    assert (Hst : Script.exit_status
                    (fst match DataAggregator.process w
                                 (DataAggregator.mk (nth 1 argv EmptyString) (getcwd w))
                                 (mkRuntime (log (Script.runtime k))
                                            (written (Script.runtime k)) None)
                         with
                         | (Return result, st') =>
                             (Script.Normal tt,
                              Script.mkConsole st'
                                (Script.stdout k
                                 ++ [if Script.truthy result
                                     then ("Processing complete. Output file: "
                                           ++ Script.format_result result)%string
                                     else "Processing failed. Check logs for details."]))
                         | (Raise e, st') =>
                             (Script.SystemExit 1%Z,
                              Script.mkConsole
                                (add_log st'
                                   [mkLog ERROR ("Unexpected error in main execution: "
                                                 ++ exc_msg e)%string])
                                (Script.stdout k))
                         end) = 0%Z).
    { rewrite process_run.
      destruct (datasets_read w _) as [|d ds]; [reflexivity|].
      cbv beta iota zeta.
      destruct (to_csv_failure w _ _); reflexivity. }
    rewrite Hst. repeat split; try easy; lia.
Qed.



(* ===================================================================== *)
(** * Properties of the packaging helper *)
(* ===================================================================== *)

Section Helper.

Import Python2Exe.

Lemma input_run (prompt : string) (k : Terminal) :
  input prompt k
  = match stdin k with
    | [] =>
        (Uncaught EOFError,
         mkTerminal [] (stdout k ++ [prompt]) (logged k) (launched k) (compiled k))
    | line :: rest =>
        (Normal line,
         mkTerminal rest (stdout k ++ [prompt]) (logged k) (launched k) (compiled k))
    end.
Proof.
  unfold input, bind, write. cbn [stdin stdout logged launched compiled].
  destruct k as [sin sout lg la co]. cbn [stdin]. now destruct sin.
Qed.

Lemma snoc_repeat {A : Type} (l : list A) (x : A) (n : nat) :
  (l ++ [x]) ++ repeat x n = l ++ repeat x (S n).
Proof. now rewrite <- app_assoc. Qed.

Lemma get_yes_no_turns_answer (prompt line : string) (rest : list string) :
  invalid_answer line = false ->
  forall (bad : list string) (fuel : nat) (k : Terminal),
    forallb invalid_answer bad = true ->
    stdin k = bad ++ line :: rest ->
    List.length bad <= fuel ->
    get_yes_no_turns fuel prompt k
    = (Normal (String.eqb (PyStr.lower (PyStr.strip line)) "y"),
       mkTerminal rest
         (stdout k ++ repeat prompt (S (List.length bad)))
         (logged k ++ repeat invalid_warning (List.length bad))
         (launched k) (compiled k)).
Proof.
  intros Hline. apply negb_false_iff in Hline.
  induction bad as [|b bad IH]; intros fuel k Hbad Hin Hfuel.
  - destruct fuel; cbn [get_yes_no_turns]; unfold bind at 1;
      rewrite input_run, Hin; cbn [app]; rewrite Hline;
      unfold ret; cbn [repeat List.length]; now rewrite app_nil_r.
  - simpl in Hbad. apply andb_prop in Hbad as [Hb Hbad].
    apply negb_true_iff in Hb.
    destruct fuel as [|fuel]; [simpl in Hfuel; lia|].
    cbn [get_yes_no_turns]. unfold bind at 1.
    rewrite input_run, Hin. cbn [app]. rewrite Hb.
    unfold bind at 1. unfold logging_emit at 1.
    cbn [stdin stdout logged launched compiled].
    rewrite (IH fuel); cbn [stdin stdout logged launched compiled List.length];
      [| exact Hbad | reflexivity | simpl in Hfuel; lia].
    fold invalid_warning. now rewrite !snoc_repeat.
Qed.

Lemma get_yes_no_turns_eof (prompt : string) :
  forall (lines : list string) (fuel : nat) (k : Terminal),
    forallb invalid_answer lines = true ->
    stdin k = lines ->
    List.length lines <= fuel ->
    get_yes_no_turns fuel prompt k
    = (Uncaught EOFError,
       mkTerminal []
         (stdout k ++ repeat prompt (S (List.length lines)))
         (logged k ++ repeat invalid_warning (List.length lines))
         (launched k) (compiled k)).
Proof.
  induction lines as [|b lines IH]; intros fuel k Hbad Hin Hfuel.
  - destruct fuel; cbn [get_yes_no_turns]; unfold bind at 1;
      rewrite input_run, Hin; cbn [repeat List.length]; now rewrite app_nil_r.
  - simpl in Hbad. apply andb_prop in Hbad as [Hb Hbad].
    apply negb_true_iff in Hb.
    destruct fuel as [|fuel]; [simpl in Hfuel; lia|].
    cbn [get_yes_no_turns]. unfold bind at 1.
    rewrite input_run, Hin. rewrite Hb.
    unfold bind at 1. unfold logging_emit at 1.
    cbn [stdin stdout logged launched compiled].
    rewrite (IH fuel); cbn [stdin stdout logged launched compiled List.length];
      [| exact Hbad | reflexivity | simpl in Hfuel; lia].
    fold invalid_warning. now rewrite !snoc_repeat.
Qed.

(** X9.  [get_yes_no] answers from the first line that reads y or n once
    stripped and lowered.  The lines before it are consumed, each costs
    one more prompt and one warning; the lines after it are left on the
    input. *)
Theorem get_yes_no_answers_from_first_valid_line (prompt line : string)
  (bad rest : list string) (k : Terminal) :
  forallb invalid_answer bad = true ->
  invalid_answer line = false ->
  stdin k = bad ++ line :: rest ->
  get_yes_no prompt k
  = (Normal (String.eqb (PyStr.lower (PyStr.strip line)) "y"),
     told k rest (repeat prompt (S (List.length bad)))
          (repeat invalid_warning (List.length bad))).
Proof.
  intros Hbad Hline Hin. unfold get_yes_no, told.
  apply get_yes_no_turns_answer; try assumption.
  rewrite Hin, length_app. lia.
Qed.

Lemma get_yes_no_answers_from_first_valid_line_witness :
  fst (get_yes_no "? " (mkTerminal ["maybe"; ""; "  Y "; "n"] [] [] [] []))
  = Normal true.
Proof.
  rewrite (get_yes_no_answers_from_first_valid_line "? " "  Y " ["maybe"; ""] ["n"]);
    reflexivity.
Defined.

(** X10.  When no line of the input reads y or n, [get_yes_no] consumes them
    all, warns once for each, and ends with the [EOFError] of the prompt
    that follows the last line: the loop cannot spin on an exhausted
    input. *)
Theorem get_yes_no_raises_at_end_of_input (prompt : string) (k : Terminal) :
  forallb invalid_answer (stdin k) = true ->
  get_yes_no prompt k
  = (Uncaught EOFError,
     told k [] (repeat prompt (S (List.length (stdin k))))
          (repeat invalid_warning (List.length (stdin k)))).
Proof.
  intros Hbad. unfold get_yes_no, told.
  now apply get_yes_no_turns_eof.
Qed.

Lemma get_yes_no_raises_at_end_of_input_witness :
  fst (get_yes_no "? " (mkTerminal ["maybe"; "yes"] [] [] [] []))
  = Uncaught EOFError.
Proof.
  rewrite (get_yes_no_raises_at_end_of_input "? "
             (mkTerminal ["maybe"; "yes"] [] [] [] []));
    reflexivity.
Defined.

(** ** Splitting and joining *)

Lemma split_free (sep : ascii) (p : string) :
  free_of sep p = true -> PyStr2.split sep p = [p].
Proof.
  unfold free_of. induction p as [|a p IH]; simpl; [reflexivity|].
  intros H. apply andb_prop in H as [Ha Hp].
  apply negb_true_iff in Ha. now rewrite Ha, (IH Hp).
Qed.

Lemma split_app_sep (sep : ascii) (p s : string) :
  free_of sep p = true ->
  PyStr2.split sep (p ++ String sep s) = p :: PyStr2.split sep s.
Proof.
  unfold free_of. induction p as [|a p IH]; simpl.
  - intros _. now rewrite Ascii.eqb_refl.
  - intros H. apply andb_prop in H as [Ha Hp].
    apply negb_true_iff in Ha. now rewrite Ha, (IH Hp).
Qed.

Lemma split_join (sep : ascii) (pieces : list string) :
  pieces <> [] ->
  forallb (free_of sep) pieces = true ->
  PyStr2.split sep (PyStr2.join (String sep EmptyString) pieces) = pieces.
Proof.
  induction pieces as [|p pieces IH]; [contradiction|].
  intros _ Hfree. simpl in Hfree. apply andb_prop in Hfree as [Hp Hrest].
  destruct pieces as [|q pieces].
  - simpl. now apply split_free.
  - change (PyStr2.join (String sep EmptyString) (p :: q :: pieces))
      with (p ++ String sep (PyStr2.join (String sep EmptyString) (q :: pieces)))%string.
    rewrite split_app_sep by assumption.
    now rewrite IH.
Qed.

Lemma map_id_on {A : Type} (f : A -> A) (l : list A) :
  (forall x, In x l -> f x = x) -> map f l = l.
Proof.
  intros H. induction l as [|x l IH]; simpl; [reflexivity|].
  rewrite (H x), IH; [reflexivity | | now left].
  intros y Hy. apply H. now right.
Qed.

(** ** The arguments of the test run *)

Lemma get_yes_no_first_line (prompt line : string) (rest : list string)
  (k : Terminal) :
  invalid_answer line = false ->
  stdin k = line :: rest ->
  get_yes_no prompt k
  = (Normal (String.eqb (PyStr.lower (PyStr.strip line)) "y"),
     told k rest [prompt] []).
Proof.
  intros Hline Hin. unfold get_yes_no.
  apply (get_yes_no_turns_answer prompt line rest Hline [] _ k eq_refl Hin).
  simpl. lia.
Qed.

(** X11.  The arguments typed for the test run are read back as they were
    joined.  After the answer y, a line made of arguments joined by
    tildes yields exactly these arguments, provided none contains a tilde
    or has white space at its ends; in particular an empty line yields
    one empty argument, not none.  Two lines are consumed and nothing is
    logged. *)
Theorem handle_test_file_arguments_reads_back (self : Executer.t)
  (answer : string) (arguments rest : list string) (k : Terminal) :
  PyStr.lower (PyStr.strip answer) = "y" ->
  arguments <> [] ->
  forallb (free_of "~") arguments = true ->
  (forall a, In a arguments -> PyStr.strip a = a) ->
  stdin k = answer :: PyStr2.join "~" arguments :: rest ->
  Executer.handle_test_file_arguments self k
  = (Normal arguments, told k rest [arguments_question; arguments_prompt] []).
Proof.
  intros Hyes Hne Hfree Hstrip Hin.
  unfold Executer.handle_test_file_arguments. unfold bind at 1.
  fold arguments_question.
  rewrite (get_yes_no_first_line _ answer (PyStr2.join "~" arguments :: rest) k);
    [| unfold invalid_answer; now rewrite Hyes | exact Hin].
  rewrite Hyes. cbn [String.eqb Ascii.eqb Bool.eqb]. cbv beta iota.
  unfold bind at 1. rewrite input_run. unfold told at 1. cbn [stdin].
  unfold ret. fold arguments_prompt.
  rewrite split_join by assumption. rewrite (map_id_on _ _ Hstrip).
  unfold told. cbn [stdout logged launched compiled].
  now rewrite <- !app_assoc, !app_nil_r.
Qed.

Lemma handle_test_file_arguments_reads_back_witness :
  fst (Executer.handle_test_file_arguments
         (Executer.mk (PosixPath.of_string "t.py"))
         (mkTerminal [" Y"; "--n~3~"; "q"] [] [] [] []))
  = Normal ["--n"; "3"; EmptyString].
Proof.
  rewrite (handle_test_file_arguments_reads_back
             (Executer.mk (PosixPath.of_string "t.py")) " Y"
             ["--n"; "3"; EmptyString] ["q"]).
  - reflexivity.
  - reflexivity.
  - discriminate.
  - reflexivity.
  - intros a [<- | [<- | [<- | []]]]; reflexivity.
  - reflexivity.
Defined.


(** ** The test run *)

Lemma test_file_run (h : Host) (self : Executer.t) (arguments : list string)
  (k k1 : Terminal) :
  Executer.handle_test_file_arguments self k = (Normal arguments, k1) ->
  Executer.test_file h self k
  = match path_exists h (PosixPath.to_string (Executer.file self)) with
    | Return true =>
        let testing :=
          mkLog INFO ("Testing file '" ++ PosixPath.to_string (Executer.file self)
                      ++ "' with arguments: " ++ repr_list h arguments)%string in
        match popen_failure h (test_command self arguments) with
        | None =>
            (Normal true,
             mkTerminal (stdin k1) (stdout k1)
               (logged k1
                ++ [testing;
                    mkLog INFO "Python syntax is fine! Ready to turn into an executable."])
               (launched k1 ++ [test_command self arguments]) (compiled k1))
        | Some e =>
            (Uncaught (Raised e), told k1 (stdin k1) [] [testing])
        end
    | Return false =>
        (Normal false,
         told k1 (stdin k1) []
           [mkLog ERROR ("Error: File '" ++ PosixPath.to_string (Executer.file self)
                         ++ "' does not exist or is invalid.")%string])
    | Raise e => (Uncaught (Raised e), k1)
    end.
Proof.
  intros Hargs. unfold Executer.test_file. unfold bind at 1. rewrite Hargs.
  unfold bind at 1. unfold call at 1. fold (test_command self arguments).
  destruct (path_exists h (PosixPath.to_string (Executer.file self))) as [[|]|e].
  - unfold bind at 1. unfold logging_emit at 1. unfold bind at 1.
    unfold Popen. destruct (popen_failure h (test_command self arguments)) as [e|].
    + unfold raise, told. cbn [stdin stdout logged launched compiled].
      now rewrite app_nil_r.
    + cbn [stdin stdout logged launched compiled].
      unfold bind, logging_emit, ret. cbn [stdin stdout logged launched compiled].
      now rewrite <- app_assoc.
  - unfold bind, logging_emit, ret, told.
    cbn [stdin stdout logged launched compiled]. now rewrite app_nil_r.
  - reflexivity.
Qed.

(** X12.  [test_file] reports on the start of the test run, not on its result.
    Once the arguments are read, and unless starting the process raises,
    it returns True exactly when the file exists, having started
    [python <file> <arguments>] once without waiting for it; when the
    file does not exist it starts nothing and returns False, the
    arguments having been asked for all the same. *)
Theorem test_file_true_iff_file_exists (h : Host) (self : Executer.t)
  (arguments : list string) (k k1 : Terminal) (present : bool) :
  Executer.handle_test_file_arguments self k = (Normal arguments, k1) ->
  path_exists h (PosixPath.to_string (Executer.file self)) = Return present ->
  popen_failure h (test_command self arguments) = None ->
  exists k' : Terminal,
    Executer.test_file h self k = (Normal present, k') /\
    launched k'
      = launched k1 ++ (if present then [test_command self arguments] else []) /\
    stdin k' = stdin k1 /\ stdout k' = stdout k1 /\ compiled k' = compiled k1.
Proof.
  intros Hargs Hpresent Hpopen.
  rewrite (test_file_run h self arguments k k1 Hargs), Hpresent.
  destruct present.
  - cbv zeta. rewrite Hpopen. eexists. repeat split.
  - eexists. split; [reflexivity|]. unfold told.
    cbn [stdin stdout logged launched compiled]. now rewrite !app_nil_r.
Qed.

(** ** Compilation *)

(** The arguments [compile_python] gives to PyInstaller when the line
    typed at the imports prompt is [line]. *)
Lemma get_imports_run (h : Host) (self : Executer.t) (line : string)
  (rest : list string) (k : Terminal) :
  stdin k = line :: rest ->
  Executer.get_imports h self k
  = let imports := map PyStr.strip (PyStr2.split "," line) in
    let first :=
      [mkLog INFO
         "Enter all your third-party imports. View an example below of how the string should be entered.";
       mkLog INFO ("Entered imports: " ++ repr_list h imports)%string] in
    if (2 <? String.length line)%nat
    then (Normal None, told k rest [imports_prompt] first)
    else (Normal (Some imports),
          told k rest [imports_prompt]
            (first ++ [mkLog INFO (newline ++ "Your entered imports:")%string])).
Proof.
  intros Hin. unfold Executer.get_imports.
  unfold bind at 1. unfold logging_emit at 1.
  unfold bind at 1. rewrite input_run. cbn [stdin stdout logged launched compiled].
  rewrite Hin. fold imports_prompt.
  unfold bind at 1. unfold logging_emit at 1.
  cbn [stdin stdout logged launched compiled]. cbv zeta.
  destruct (2 <? String.length line)%nat.
  - unfold ret, told. cbn [stdin stdout logged launched compiled].
    now rewrite <- !app_assoc.
  - unfold bind, logging_emit, ret, told.
    cbn [stdin stdout logged launched compiled].
    now rewrite <- !app_assoc.
Qed.

Lemma test_file_true_iff_file_exists_witness :
  fst (Executer.test_file HelperScenario.host HelperScenario.script
         (HelperScenario.typing ["y"; "1~2"]))
    = Normal true /\
  fst (Executer.test_file HelperScenario.host HelperScenario.missing
         (HelperScenario.typing ["y"; "1~2"]))
    = Normal false.
Proof.
  split.
  - destruct (test_file_true_iff_file_exists HelperScenario.host
                HelperScenario.script ["1"; "2"]
                (HelperScenario.typing ["y"; "1~2"]) _ true
                eq_refl eq_refl eq_refl) as (k' & Hrun & _).
    now rewrite Hrun.
  - destruct (test_file_true_iff_file_exists HelperScenario.host
                HelperScenario.missing ["1"; "2"]
                (HelperScenario.typing ["y"; "1~2"]) _ false
                eq_refl eq_refl eq_refl) as (k' & Hrun & _).
    now rewrite Hrun.
Defined.

Lemma compile_python_run (h : Host) (self : Executer.t) (k : Terminal) :
  Executer.compile_python h self k
  = match stdin k with
    | [] =>
        (Uncaught EOFError,
         told k [] [imports_prompt]
           [mkLog INFO
              "Enter all your third-party imports. View an example below of how the string should be entered."])
    | line :: rest =>
        let imports := map PyStr.strip (PyStr2.split "," line) in
        let before :=
          [mkLog INFO
             "Enter all your third-party imports. View an example below of how the string should be entered.";
           mkLog INFO ("Entered imports: " ++ repr_list h imports)%string]
          ++ (if (2 <? String.length line)%nat then []
              else [mkLog INFO (newline ++ "Your entered imports:")%string])
          ++ [mkLog INFO "Compiling Python into an executable...."] in
        let k1 :=
          mkTerminal rest (stdout k ++ [imports_prompt]) (logged k ++ before)
            (launched k) (compiled k ++ [pyinstaller_args self line]) in
        match pyinstaller h (pyinstaller_args self line) with
        | Normal _ => (Normal tt, k1)
        | Uncaught e =>
            (Normal tt,
             told k1 rest []
               [mkLog ERROR ("Error during compilation: " ++ str_error e)%string])
        | SystemExit code => (SystemExit code, k1)
        end
    end.
Proof.
  unfold Executer.compile_python. unfold bind at 1.
  destruct (stdin k) as [|line rest] eqn:Hin.
  - unfold Executer.get_imports. unfold bind at 1. unfold logging_emit at 1.
    unfold bind at 1. rewrite input_run.
    cbn [stdin stdout logged launched compiled]. rewrite Hin.
    reflexivity.
  - rewrite (get_imports_run h self line rest k Hin). cbv zeta.
    unfold pyinstaller_args, hidden_import.
    destruct (2 <? String.length line)%nat.
    + unfold bind at 1. unfold logging_emit at 1. unfold told.
      cbn [stdin stdout logged launched compiled].
      unfold try_except, PyInstaller_run.
      cbn [stdin stdout logged launched compiled app].
      destruct (pyinstaller h _) as [[]|e|code];
        cbn [stdin stdout logged launched compiled app].
      * now rewrite <- ?app_assoc.
      * unfold logging_emit, told. cbn [stdin stdout logged launched compiled].
        now rewrite <- ?app_assoc, ?app_nil_r.
      * now rewrite <- ?app_assoc.
    + unfold bind at 1. unfold logging_emit at 1. unfold told.
      cbn [stdin stdout logged launched compiled].
      unfold try_except, PyInstaller_run.
      cbn [stdin stdout logged launched compiled app].
      destruct (pyinstaller h _) as [[]|e|code];
        cbn [stdin stdout logged launched compiled app].
      * now rewrite <- ?app_assoc.
      * unfold logging_emit, told. cbn [stdin stdout logged launched compiled].
        now rewrite <- ?app_assoc, ?app_nil_r.
      * now rewrite <- ?app_assoc.
Qed.

(** X13.  The imports typed by the user reach PyInstaller only when the line
    typed has at most two characters.  For a longer line, the example
    line of the prompt among them, PyInstaller is run with the file and
    the two fixed options alone; for a shorter one it also gets one
    [--hidden-import=] option holding the pieces between commas,
    stripped and joined again by commas.  PyInstaller is run once and
    one line is consumed either way. *)
Theorem compile_python_passes_imports_of_short_lines_only (h : Host)
  (self : Executer.t) (line : string) (rest : list string) (k : Terminal) :
  stdin k = line :: rest ->
  stdin (snd (Executer.compile_python h self k)) = rest /\
  (2 < String.length line ->
   compiled (snd (Executer.compile_python h self k))
   = compiled k
     ++ [[PosixPath.to_string (Executer.file self); "--onefile"; "--windowed"]]) /\
  (String.length line <= 2 ->
   compiled (snd (Executer.compile_python h self k))
   = compiled k
     ++ [[PosixPath.to_string (Executer.file self); "--onefile"; "--windowed";
          ("--hidden-import="
           ++ PyStr2.join "," (map PyStr.strip (PyStr2.split "," line)))%string]]).
Proof.
  intros Hin. rewrite compile_python_run, Hin. cbv zeta.
  unfold pyinstaller_args, hidden_import.
  split; [|split].
  - destruct (pyinstaller h _) as [[]|e|code]; reflexivity.
  - intros Hlong. apply Nat.ltb_lt in Hlong. rewrite Hlong.
    destruct (pyinstaller h _) as [[]|e|code]; reflexivity.
  - intros Hshort. apply Nat.ltb_ge in Hshort. rewrite Hshort.
    destruct (pyinstaller h _) as [[]|e|code]; reflexivity.
Qed.

Lemma compile_python_passes_imports_of_short_lines_only_witness :
  compiled (snd (Executer.compile_python HelperScenario.host HelperScenario.script
                   (HelperScenario.typing ["chardet, pandas"])))
  = [["script.py"; "--onefile"; "--windowed"]].
Proof.
  destruct (compile_python_passes_imports_of_short_lines_only HelperScenario.host
              HelperScenario.script "chardet, pandas" []
              (HelperScenario.typing ["chardet, pandas"]) eq_refl)
    as (_ & Hlong & _).
  rewrite Hlong; [reflexivity | simpl; lia].
Defined.

(** X14.  An [Exception] raised by PyInstaller does not leave
    [compile_python]: it is logged as an error and the call returns.  A
    [SystemExit] raised by PyInstaller does leave it.  At the end of the
    input the [EOFError] of the imports prompt leaves it too, and
    PyInstaller is not run. *)
Theorem compile_python_contains_exceptions (h : Host) (self : Executer.t)
  (k : Terminal) :
  match stdin k with
  | [] =>
      fst (Executer.compile_python h self k) = Uncaught EOFError /\
      compiled (snd (Executer.compile_python h self k)) = compiled k
  | line :: _ =>
      match pyinstaller h (pyinstaller_args self line) with
      | Normal _ => fst (Executer.compile_python h self k) = Normal tt
      | Uncaught e =>
          fst (Executer.compile_python h self k) = Normal tt /\
          exists earlier,
            logged (snd (Executer.compile_python h self k))
            = logged k ++ earlier
              ++ [mkLog ERROR ("Error during compilation: " ++ str_error e)%string]
      | SystemExit code =>
          fst (Executer.compile_python h self k) = SystemExit code
      end
  end.
Proof.
  rewrite compile_python_run.
  destruct (stdin k) as [|line rest].
  - now split.
  - cbv zeta. destruct (pyinstaller h (pyinstaller_args self line)) as [[]|e|code].
    + reflexivity.
    + split; [reflexivity|]. eexists. unfold told.
      cbn [snd stdin stdout logged launched compiled].
      rewrite <- app_assoc. reflexivity.
    + reflexivity.
Qed.

(** ** The file to package *)

Lemma rfind_free (c : ascii) (s : string) :
  free_of c s = true -> PyStr2.rfind c s = None.
Proof.
  unfold free_of. induction s as [|a s IH]; simpl; [reflexivity|].
  intros H. apply andb_prop in H as [Ha Hs].
  apply negb_true_iff in Ha. now rewrite (IH Hs), Ha.
Qed.

Lemma rfind_None (c : ascii) (s : string) :
  PyStr2.rfind c s = None -> free_of c s = true.
Proof.
  unfold free_of. induction s as [|a s IH]; simpl; [reflexivity|].
  destruct (PyStr2.rfind c s); [discriminate|].
  destruct (Ascii.eqb a c); [discriminate|].
  intros _. now rewrite IH.
Qed.

Lemma rfind_last (c : ascii) (a b : string) :
  free_of c b = true ->
  PyStr2.rfind c (a ++ String c b) = Some (String.length a).
Proof.
  intros Hb. induction a as [|x a IH]; simpl.
  - now rewrite (rfind_free c b Hb), Ascii.eqb_refl.
  - now rewrite IH.
Qed.

Lemma rfind_Some (c : ascii) (s : string) :
  forall i,
    PyStr2.rfind c s = Some i ->
    exists a b,
      s = (a ++ String c b)%string /\ String.length a = i /\ free_of c b = true.
Proof.
  induction s as [|x s IH]; intros i; simpl; [discriminate|].
  destruct (PyStr2.rfind c s) as [j|] eqn:Hj.
  - intros H. injection H as <-.
    destruct (IH j eq_refl) as (a & b & -> & Hlen & Hb).
    exists (String x a), b. simpl. now rewrite Hlen.
  - destruct (Ascii.eqb x c) eqn:Hx; [|discriminate].
    intros H. injection H as <-. apply Ascii.eqb_eq in Hx. subst x.
    exists EmptyString, s. repeat split. now apply rfind_None.
Qed.

Lemma drop_app (a b : string) : PyStr2.drop (String.length a) (a ++ b) = b.
Proof. induction a as [|x a IH]; simpl; [now destruct b | exact IH]. Qed.

Lemma length_append_str (a b : string) :
  String.length (a ++ b) = String.length a + String.length b.
Proof. induction a as [|x a IH]; simpl; [reflexivity | now rewrite IH]. Qed.

(** The suffix of a path is [.py] exactly when its name is a non-empty
    stem followed by [.py]. *)
Lemma suffix_py_iff (p : PosixPath.t) :
  PosixPath.suffix p = ".py" <->
  exists stem, stem <> EmptyString /\ PosixPath.name p = (stem ++ ".py")%string.
Proof.
  unfold PosixPath.suffix. cbv zeta. split.
  - destruct (PyStr2.rfind "." (PosixPath.name p)) as [i|] eqn:Hi; [|discriminate].
    destruct (rfind_Some _ _ _ Hi) as (a & b & Hname & Hlen & Hb).
    destruct ((0 <? i) && (i <? String.length (PosixPath.name p) - 1))%nat eqn:Hc;
      [|discriminate].
    apply andb_prop in Hc as [Hpos _]. apply Nat.ltb_lt in Hpos.
    rewrite Hname, <- Hlen, drop_app. intros Hdrop.
    exists a. split.
    + intros ->. simpl in Hlen. lia.
    + now rewrite Hdrop.
  - intros (stem & Hne & Hname). rewrite Hname.
    rewrite (rfind_last "." stem "py" eq_refl).
    rewrite length_append_str. simpl String.length.
    replace ((0 <? String.length stem)
             && (String.length stem <? String.length stem + 3 - 1))%nat
      with true.
    + apply drop_app.
    + symmetry. apply andb_true_intro. split; apply Nat.ltb_lt; [|lia].
      destruct stem; [contradiction | simpl; lia].
Qed.

Lemma validate_file_run (h : Host) (file : string) (k : Terminal) :
  validate_file h file k
  = match path_exists h (PosixPath.to_string (PosixPath.of_string file)) with
    | Raise e => (Uncaught (Raised e), k)
    | Return false =>
        (SystemExit 1%Z,
         told k (stdin k) []
           [mkLog ERROR ("Error: File '" ++ file ++ "' does not exist.")%string])
    | Return true =>
        if String.eqb (PosixPath.suffix (PosixPath.of_string file)) ".py"
        then (Normal (PosixPath.of_string file), k)
        else
          (SystemExit 1%Z,
           told k (stdin k) []
             [mkLog ERROR ("Error: File '" ++ file ++ "' is not a Python file.")%string])
    end.
Proof.
  unfold validate_file. cbv zeta. unfold bind at 1. unfold call at 1.
  destruct (path_exists h _) as [[|]|e].
  - cbn [negb]. unfold bind at 1. unfold ret at 1. unfold bind at 1.
    destruct (String.eqb (PosixPath.suffix (PosixPath.of_string file)) ".py").
    + reflexivity.
    + cbn [negb]. unfold bind, logging_emit, sys_exit, told.
      cbn [stdin stdout logged launched compiled]. now rewrite app_nil_r.
  - cbn [negb]. unfold bind, logging_emit, sys_exit, told.
    cbn [stdin stdout logged launched compiled]. now rewrite app_nil_r.
  - reflexivity.
Qed.

(** X15.  [validate_file] accepts a file exactly when it exists and the last
    name of its path is a non-empty stem followed by [.py], in lower
    case; then it returns the path and logs nothing.  A file that is
    absent, or present with another name (the name [.py] alone, an
    upper-case [.PY]), ends the helper with exit status 1 after one
    error naming the file as it was typed. *)
Theorem validate_file_accepts_python_files (h : Host) (file : string)
  (k : Terminal) :
  (validate_file h file k = (Normal (PosixPath.of_string file), k) <->
   path_exists h (PosixPath.to_string (PosixPath.of_string file)) = Return true /\
   exists stem,
     stem <> EmptyString /\
     PosixPath.name (PosixPath.of_string file) = (stem ++ ".py")%string) /\
  (forall present,
      path_exists h (PosixPath.to_string (PosixPath.of_string file)) = Return present ->
      validate_file h file k <> (Normal (PosixPath.of_string file), k) ->
      exists reason,
        validate_file h file k
        = (SystemExit 1%Z,
           told k (stdin k) []
             [mkLog ERROR ("Error: File '" ++ file ++ "' " ++ reason)%string])).
Proof.
  rewrite <- suffix_py_iff, validate_file_run. split.
  - destruct (path_exists h _) as [[|]|e].
    + destruct (String.eqb (PosixPath.suffix (PosixPath.of_string file)) ".py")
        eqn:Hs.
      * apply String.eqb_eq in Hs. tauto.
      * apply String.eqb_neq in Hs. split; [discriminate|].
        intros [_ H]. contradiction.
    + split; [discriminate | intros [H _]; discriminate].
    + split; [discriminate | intros [H _]; discriminate].
  - intros present Hp. rewrite Hp. destruct present.
    + destruct (String.eqb (PosixPath.suffix (PosixPath.of_string file)) ".py").
      * intros H. contradiction.
      * intros _. now exists "is not a Python file.".
    + intros _. now exists "does not exist.".
Qed.

Example path_names_and_suffixes :
  PosixPath.to_string (PosixPath.of_string "a//b/./c.py") = "a/b/c.py" /\
  PosixPath.suffix (PosixPath.of_string "dir/a.py/") = ".py" /\
  PosixPath.suffix (PosixPath.of_string "dir/.py") = EmptyString /\
  PosixPath.suffix (PosixPath.of_string "A.PY") = ".PY" /\
  PosixPath.suffix (PosixPath.of_string "a.tar.py") = ".py" /\
  PosixPath.to_string (PosixPath.of_string EmptyString) = ".".
Proof. repeat split. Qed.

(** ** The loop of [main] *)

Lemma main_loop_unfold (h : Host) (executer : Executer.t) (fuel : nat) :
  main_loop h executer fuel
  = main_turn h executer
      match fuel with
      | 0 => raise EOFError
      | S fuel' => main_loop h executer fuel'
      end.
Proof. destruct fuel; reflexivity. Qed.

Lemma bind_input {A : Type} (prompt : string) (f : string -> IO A) (k : Terminal) :
  bind (input prompt) f k
  = match stdin k with
    | [] =>
        (Uncaught EOFError,
         mkTerminal [] (stdout k ++ [prompt]) (logged k) (launched k) (compiled k))
    | line :: rest =>
        f line (mkTerminal rest (stdout k ++ [prompt]) (logged k)
                           (launched k) (compiled k))
    end.
Proof.
  unfold bind at 1. rewrite input_run. now destruct (stdin k).
Qed.



















(** ** The loop of [main] ends *)

Lemma forward_bind {A B : Type} (c : IO A) (f : A -> IO B) :
  reads_forward c -> (forall a, reads_forward (f a)) -> reads_forward (bind c f).
Proof.
  intros Hc Hf k. unfold bind. pose proof (Hc k) as Hk.
  destruct (c k) as [[a|e|code] k1]; cbn [snd] in *; try assumption.
  pose proof (Hf a k1). lia.
Qed.

Lemma forward_ret {A : Type} (a : A) : reads_forward (ret a).
Proof. intros k. simpl. lia. Qed.

Lemma forward_raise {A : Type} (e : Error) : reads_forward (@raise A e).
Proof. intros k. simpl. lia. Qed.

Lemma forward_logging_emit (lvl : LogLevel) (msg : string) :
  reads_forward (logging_emit lvl msg).
Proof. intros k. simpl. lia. Qed.

Lemma forward_call {A : Type} (r : Outcome A) : reads_forward (call r).
Proof. intros k. unfold call. destruct r; simpl; lia. Qed.

Lemma forward_input (prompt : string) : reads_forward (input prompt).
Proof. intros k. rewrite input_run. destruct (stdin k); simpl; lia. Qed.

Lemma forward_get_yes_no_turns (prompt : string) (fuel : nat) :
  reads_forward (get_yes_no_turns fuel prompt).
Proof.
  induction fuel as [|fuel IH]; cbn [get_yes_no_turns];
    (apply forward_bind; [apply forward_input|]); intros answer;
    destruct (yes_or_no (PyStr.lower (PyStr.strip answer)));
    try apply forward_ret;
    (apply forward_bind; [apply forward_logging_emit|]); intros _.
  - apply forward_raise.
  - exact IH.
Qed.

Lemma forward_handle_test_file_arguments (self : Executer.t) :
  reads_forward (Executer.handle_test_file_arguments self).
Proof.
  unfold Executer.handle_test_file_arguments.
  apply forward_bind.
  - intros k. apply forward_get_yes_no_turns.
  - intros [|]; [|apply forward_ret].
    apply forward_bind; [apply forward_input|]. intros line. apply forward_ret.
Qed.

Lemma forward_test_file (h : Host) (self : Executer.t) :
  reads_forward (Executer.test_file h self).
Proof.
  unfold Executer.test_file.
  apply forward_bind; [apply forward_handle_test_file_arguments|]. intros args.
  cbv zeta. apply forward_bind; [apply forward_call|]. intros [|].
  - apply forward_bind; [apply forward_logging_emit|]. intros _.
    apply forward_bind.
    + intros k. unfold Popen. destruct (popen_failure h _); simpl; lia.
    + intros _. apply forward_bind; [apply forward_logging_emit|].
      intros _. apply forward_ret.
  - apply forward_bind; [apply forward_logging_emit|]. intros _. apply forward_ret.
Qed.

(** A turn of the loop calls what follows it, if at all, on a shorter
    input. *)
Lemma main_turn_ext (h : Host) (executer : Executer.t) (again again' : IO unit)
  (k : Terminal) :
  (forall k1, List.length (stdin k1) < List.length (stdin k) -> again k1 = again' k1) ->
  main_turn h executer again k = main_turn h executer again' k.
Proof.
  intros Hsame. unfold main_turn. rewrite !bind_input.
  destruct (stdin k) as [|line rest] eqn:Hin; [reflexivity|].
  unfold bind, print, write.
  cbn [stdin stdout logged launched compiled].
  destruct (String.eqb (PyStr.lower (PyStr.strip line)) "q"); [reflexivity|].
  set (k2 := mkTerminal rest _ _ _ _).
  pose proof (forward_test_file h executer k2) as Hshort.
  destruct (Executer.test_file h executer k2) as [[tested|e|code] k3];
    try reflexivity.
  destruct (tested && String.eqb (PyStr.lower (PyStr.strip line)) "y");
    [reflexivity|].
  apply Hsame. cbn [snd] in Hshort. subst k2. cbn [stdin] in Hshort.
  simpl. lia.
Qed.

(** X19.  The loop of [main] ends on every input.  A turn reads a line, so
    the loop makes at most as many turns as there are lines, the last one
    ending with the [EOFError] of its prompt at the latest: whatever
    number of turns at least that large is allowed, the loop does the
    same. *)
Theorem main_loop_ends (h : Host) (executer : Executer.t) (fuel fuel' : nat)
  (k : Terminal) :
  List.length (stdin k) <= fuel ->
  List.length (stdin k) <= fuel' ->
  main_loop h executer fuel k = main_loop h executer fuel' k.
Proof.
  revert fuel' k. induction fuel as [|fuel IH]; intros fuel' k Hf Hf'.
  - rewrite (main_loop_unfold h executer 0), (main_loop_unfold h executer fuel').
    apply main_turn_ext. intros k1 Hk1. lia.
  - rewrite (main_loop_unfold h executer (S fuel)),
      (main_loop_unfold h executer fuel').
    apply main_turn_ext. intros k1 Hk1.
    destruct fuel' as [|fuel']; [lia|]. apply IH; lia.
Qed.

Lemma main_loop_ends_witness :
  main_loop HelperScenario.host HelperScenario.script 1
            (HelperScenario.typing ["q"])
  = main_loop HelperScenario.host HelperScenario.script 7
              (HelperScenario.typing ["q"]).
Proof.
  apply (main_loop_ends HelperScenario.host HelperScenario.script 1 7
           (HelperScenario.typing ["q"])); simpl; lia.
Defined.

(** ** The answers to the question of [main] *)

Lemma main_run_loop (h : Host) (argv : list string) (k : Terminal)
  (path : PosixPath.t) :
  (2 <= List.length argv)%nat ->
  validate_file h (nth 1 argv EmptyString) k = (Normal path, k) ->
  main h argv k
  = main_turn h (Executer.init path)
      match List.length (stdin k) with
      | 0 => raise EOFError
      | S fuel' => main_loop h (Executer.init path) fuel'
      end k.
Proof.
  intros Hlen Hval. apply Nat.ltb_ge in Hlen.
  unfold main. unfold bind at 1. rewrite Hlen. unfold ret at 1.
  unfold bind at 1. rewrite Hval. cbv zeta.
  now rewrite main_loop_unfold.
Qed.

(** X17.  The answer q, in any letter case and with any white space around it,
    ends the helper at once: nothing else is read, no test run is started
    and PyInstaller is not run. *)
Theorem main_quits_on_q (h : Host) (argv : list string) (k : Terminal)
  (path : PosixPath.t) (line : string) (rest : list string) :
  (2 <= List.length argv)%nat ->
  validate_file h (nth 1 argv EmptyString) k = (Normal path, k) ->
  stdin k = line :: rest ->
  PyStr.lower (PyStr.strip line) = "q" ->
  main h argv k
  = (Normal tt,
     told k rest [test_question_prompt; (newline ++ newline)%string] []).
Proof.
  intros Hlen Hval Hin Hq.
  rewrite (main_run_loop h argv k path Hlen Hval).
  unfold main_turn. rewrite bind_input, Hin, Hq.
  unfold bind, print, write, ret, told.
  cbn [stdin stdout logged launched compiled String.eqb Ascii.eqb Bool.eqb].
  now rewrite <- app_assoc, app_nil_r.
Qed.

Lemma main_quits_on_q_witness :
  main HelperScenario.host ["Python2Exe.py"; "script.py"]
       (HelperScenario.typing [" Q "; "y"])
  = (Normal tt,
     told (HelperScenario.typing [" Q "; "y"]) ["y"]
          [test_question_prompt; (newline ++ newline)%string] []).
Proof.
  apply (main_quits_on_q HelperScenario.host ["Python2Exe.py"; "script.py"]
           (HelperScenario.typing [" Q "; "y"])
           (PosixPath.of_string "script.py") " Q " ["y"]).
  - simpl. lia.
  - reflexivity.
  - reflexivity.
  - reflexivity.
Defined.



End Helper.
